(** * Beat the Box: the game engines, the probabilities, the heuristic
    player and the grid search, embedded from the Python sources.

    - [Simulator]   : src/BTBSimulator.py
    - [GamePlayer]  : src/project_directory/BTBGamePlayer.py
    - [GameAid]     : src/BTBGameAid.py
    - [Optimizer]   : src/project_directory/BTBOptimizer.py

    Cards are records, Python ints are [Z], dicts keyed by positions are
    [gmap Z Card], lists are lists.  Percentages, which are Python floats
    obtained as [(count / total) * 100], are exact rationals [Q] here: the
    counts, the denominators and the comparisons are those of the source. *)

From Stdlib Require Import ZArith QArith Lia Ascii String.
From stdpp Require Import base gmap list strings pretty.

Local Open Scope Z_scope.

(** ** Python helpers *)

(** [l[i]] with Python's negative indices; [None] is [IndexError]. *)
Definition py_index {A : Type} (l : list A) (i : Z) : option A :=
  if 0 <=? i then l !! Z.to_nat i
  else if - Z.of_nat (length l) <=? i then l !! Z.to_nat (Z.of_nat (length l) + i)
  else None.

(** [l[i] = x]; [None] is [IndexError]. *)
Definition py_setitem {A : Type} (l : list A) (i : Z) (x : A) : option (list A) :=
  if 0 <=? i then
    if i <? Z.of_nat (length l) then Some (<[Z.to_nat i := x]> l) else None
  else if - Z.of_nat (length l) <=? i
       then Some (<[Z.to_nat (Z.of_nat (length l) + i) := x]> l)
  else None.

(** [sum(1 for x in l if f x)] *)
Definition count_if {A : Type} (f : A → bool) (l : list A) : Z :=
  Z.of_nat (length (filter (λ x, f x = true) l)).

(** [x > y] on percentages. *)
Definition Qgtb (x y : Q) : bool := negb (Qle_bool x y).

(** [(count / total) * 100] *)
Definition percent (count total : Z) : Q :=
  (inject_Z count / inject_Z total * 100)%Q.

(** Python exceptions that the modelled code can raise.
    [OutOfFuel] is not a Python exception: it marks a loop of the model
    that was cut off (see [play_loop]). *)
Inductive exn :=
  IndexError | KeyError | AttributeError | ZeroDivisionError | OutOfFuel.

(** The outcome of a method call on a mutable object of type [S]: the
    returned value, or the exception, each with the object as the call left it. *)
Inductive outcome (S A : Type) :=
  | Returns (a : A) (s : S)
  | Raises (e : exn) (s : S).
Arguments Returns {S A} a s.
Arguments Raises {S A} e s.

Definition state_of {S A : Type} (r : outcome S A) : S :=
  match r with Returns _ s => s | Raises _ s => s end.

Definition returned {S A : Type} (r : outcome S A) : option A :=
  match r with Returns a _ => Some a | Raises _ _ => None end.

(** [enumerate(l)] *)
Fixpoint enumerate_from {A : Type} (i : Z) (l : list A) : list (Z * A) :=
  match l with
  | [] => []
  | x :: l' => (i, x) :: enumerate_from (i + 1) l'
  end.

Definition enumerate {A : Type} (l : list A) : list (Z * A) := enumerate_from 0 l.

(** [range(a, b)] *)
Definition py_range (a b : Z) : list Z := seqZ a (b - a).

(** ** Cards *)

(** The class [Card] (defined with the same fields in BTBSimulator.py and
    BTBGamePlayer.py). *)
Record Card := mkCard { value : Z; suit : string; is_joker : bool }.

Global Instance Card_eq_dec : EqDecision Card.
Proof. solve_decision. Defined.

(** [Card(value, suit, is_joker)]: an ace given as 1 is stored as 14. *)
Definition new_Card (v : Z) (s : string) (j : bool) : Card :=
  mkCard (if v =? 1 then 14 else v) s j.

(** [Card.__str__] *)
Definition card_str (c : Card) : string :=
  if is_joker c then "🃏"
  else (if value c =? 14 then "A"
        else if value c =? 11 then "J"
        else if value c =? 12 then "Q"
        else if value c =? 13 then "K"
        else pretty (value c)) +:+ suit c.

Definition suits : list string := ["♠"; "♥"; "♦"; "♣"].

(** [[Card(v, s) for s in suits for v in range(1, 14)]] followed by the jokers *)
Definition build_deck (num_jokers : Z) : list Card :=
  (s ← suits; v ← py_range 1 14; [new_Card v s false])
  ++ replicate (Z.to_nat num_jokers) (new_Card 0 "" true).

(** The four predictions, Python's ['higher'], ['lower'], ['higher_equal']
    and ['lower_equal']. *)
Inductive move_type := higher | lower | higher_equal | lower_equal.

Global Instance move_type_eq_dec : EqDecision move_type.
Proof. solve_decision. Defined.

(** ['equal' in move_type], also [choice in ['higher_equal', 'lower_equal']] *)
Definition is_inclusive (mt : move_type) : bool :=
  match mt with
  | higher_equal | lower_equal => true
  | higher | lower => false
  end.

(** [random.shuffle]: the generator is an oracle that permutes a list and
    moves to its next state. *)
Record Shuffler := {
  rng : Type;
  shuffle : rng → list Card → list Card * rng
}.

(** ** src/BTBSimulator.py *)
Module Simulator.

(** The dict returned by [calculate_move_probabilities]. *)
Record Probs := {
  p_higher : Q;
  p_lower : Q;
  p_higher_equal : Q;
  p_lower_equal : Q;
  p_exact_match : Q
}.

(** [probs[move_type]] *)
Definition prob_of (p : Probs) (mt : move_type) : Q :=
  match mt with
  | higher => p_higher p
  | lower => p_lower p
  | higher_equal => p_higher_equal p
  | lower_equal => p_lower_equal p
  end.

(** [calculate_move_probabilities]; [None] is the empty dict. *)
Definition calculate_move_probabilities (visible_card : Card)
    (remaining_deck : list Card) : option Probs :=
  match remaining_deck with
  | [] => None
  | _ :: _ =>
    if is_joker visible_card then
      Some {| p_higher := 100; p_lower := 100; p_higher_equal := 100;
              p_lower_equal := 100; p_exact_match := 100 |}
    else
      let total_cards := Z.of_nat (length remaining_deck) in
      let joker_count := count_if is_joker remaining_deck in
      let target_value := value visible_card in
      let higher := count_if (λ card, is_joker card ||
                       (negb (is_joker card) && (value card >? target_value)))
                      remaining_deck in
      let lower := count_if (λ card, is_joker card ||
                       (negb (is_joker card) && (value card <? target_value)))
                      remaining_deck in
      let equal := count_if (λ card, negb (is_joker card) &&
                       (value card =? target_value)) remaining_deck in
      Some {| p_higher := percent higher total_cards;
              p_lower := percent lower total_cards;
              p_higher_equal := percent (higher + equal) total_cards;
              p_lower_equal := percent (lower + equal) total_cards;
              p_exact_match := percent (equal + joker_count) total_cards |}
  end.

(** The class [GameState]. *)
Record GameState := {
  visible_cards : list (option Card);
  remaining_deck : list Card;
  failed_boxes : gmap Z Card;
  inclusive_moves_remaining : Z;
  inclusive_threshold : Q;
  moves_used : Z;
  inclusive_moves_used : Z;
  jokers_drawn : Z
}.

(** [GameState.__init__] *)
Definition init_GameState (visible : list (option Card)) (deck : list Card)
    (inclusive_moves : Z) (threshold : Q) : GameState :=
  {| visible_cards := visible; remaining_deck := deck; failed_boxes := ∅;
     inclusive_moves_remaining := inclusive_moves;
     inclusive_threshold := threshold;
     moves_used := 0; inclusive_moves_used := 0; jokers_drawn := 0 |}.

(** [GameState.new_game] *)
Definition new_game (R : Shuffler) (num_jokers inclusive_moves : Z)
    (threshold : Q) (r : rng R) : GameState * rng R :=
  let '(deck, r') := shuffle R r (build_deck num_jokers) in
  (init_GameState (Some <$> take 9 deck) (drop 9 deck) inclusive_moves threshold,
   r').

(** [GameState.check_move_success] *)
Definition check_move_success (mt : move_type) (drawn_card target_card : Card)
    : bool :=
  if is_joker drawn_card || is_joker target_card then true
  else match mt with
       | higher => value drawn_card >? value target_card
       | lower => value drawn_card <? value target_card
       | higher_equal => value drawn_card >=? value target_card
       | lower_equal => value drawn_card <=? value target_card
       end.

(** [GameState.is_exact_match] *)
Definition is_exact_match (card1 card2 : Card) : bool :=
  if is_joker card1 || is_joker card2 then true
  else value card1 =? value card2.

(** [GameState.recover_position] *)
Definition recover_position (gs : GameState) (position : Z)
    : outcome GameState bool :=
  match failed_boxes gs !! position with
  | Some card =>
    match py_setitem (visible_cards gs) position (Some card) with
    | None => Raises IndexError gs
    | Some visible' =>
      Returns true
        {| visible_cards := visible';
           remaining_deck := remaining_deck gs;
           failed_boxes := delete position (failed_boxes gs);
           inclusive_moves_remaining := inclusive_moves_remaining gs;
           inclusive_threshold := inclusive_threshold gs;
           moves_used := moves_used gs;
           inclusive_moves_used := inclusive_moves_used gs;
           jokers_drawn := jokers_drawn gs |}
    end
  | None => Returns false gs
  end.

(** [GameState.execute_move] *)
Definition execute_move (gs : GameState) (position : Z) (mt : move_type)
    (recovery_position : option Z) : outcome GameState bool :=
  match remaining_deck gs with
  | [] => Returns false gs
  | drawn_card :: deck' =>
    if position >=? Z.of_nat (length (visible_cards gs)) then Returns false gs
    else
      match py_index (visible_cards gs) position with
      | None => Raises IndexError gs
      | Some None => Returns false gs
      | Some (Some target_card) =>
        let jokers := if is_joker drawn_card then jokers_drawn gs + 1
                      else jokers_drawn gs in
        let moves := moves_used gs + 1 in
        let incl_used := if is_inclusive mt then inclusive_moves_used gs + 1
                         else inclusive_moves_used gs in
        let incl_left := if is_inclusive mt then inclusive_moves_remaining gs - 1
                         else inclusive_moves_remaining gs in
        let success := check_move_success mt drawn_card target_card in
        let put (slot : option Card) (failed : gmap Z Card) :=
          {| visible_cards :=
               default (visible_cards gs) (py_setitem (visible_cards gs) position slot);
             remaining_deck := deck';
             failed_boxes := failed;
             inclusive_moves_remaining := incl_left;
             inclusive_threshold := inclusive_threshold gs;
             moves_used := moves;
             inclusive_moves_used := incl_used;
             jokers_drawn := jokers |} in
        if success then
          let gs1 := put (Some drawn_card) (failed_boxes gs) in
          match is_inclusive mt, recovery_position with
          | true, Some rp =>
            if is_exact_match drawn_card target_card || is_joker drawn_card
            then match recover_position gs1 rp with
                 | Returns _ gs2 => Returns success gs2
                 | Raises e gs2 => Raises e gs2
                 end
            else Returns success gs1
          | _, _ => Returns success gs1
          end
        else
          Returns success (put None (<[position := target_card]> (failed_boxes gs)))
      end
  end.

(** [GameState.get_game_stats] *)
Record Stats := {
  total_moves : Z;
  stat_inclusive_moves_used : Z;
  stat_jokers_drawn : Z;
  failed_positions : Z;
  cards_remaining : Z;
  active_positions : Z
}.

Definition get_game_stats (gs : GameState) : Stats :=
  {| total_moves := moves_used gs;
     stat_inclusive_moves_used := inclusive_moves_used gs;
     stat_jokers_drawn := jokers_drawn gs;
     failed_positions := Z.of_nat (size (failed_boxes gs));
     cards_remaining := Z.of_nat (length (remaining_deck gs));
     active_positions := count_if (λ card, bool_decide (card ≠ None))
                           (visible_cards gs) |}.

(** [all(card is None for card in self.visible_cards)] *)
Definition all_failed (visible : list (option Card)) : bool :=
  forallb (λ card, bool_decide (card = None)) visible.

(** [GameState.is_game_over] *)
Definition is_game_over (gs : GameState) : bool :=
  all_failed (visible_cards gs) || bool_decide (remaining_deck gs = []).

(** [GameState.has_won] *)
Definition has_won (gs : GameState) : bool :=
  bool_decide (remaining_deck gs = []) &&
  existsb (λ card, bool_decide (card ≠ None)) (visible_cards gs).

(** A move chosen by the player: [(position, move_type, recovery_position)]. *)
Definition Move : Type := Z * move_type * option Z.

(** [max(self.game_state.failed_boxes.keys())]; [None] on the empty dict,
    where Python raises and the caller never asks. *)
Definition max_key (m : gmap Z Card) : option Z :=
  foldr (λ k acc, Some (match acc with Some a => Z.max k a | None => k end))
        None (map_to_list m).*1.

(** One pass of [for move_type in ['higher', 'lower']]. *)
Definition plain_step (pos : Z) (probs : Probs) (acc : Q * option Move)
    (mt : move_type) : Q * option Move :=
  let '(best_prob, best_move) := acc in
  if Qgtb (prob_of probs mt) best_prob
  then (prob_of probs mt, Some (pos, mt, None))
  else acc.

(** [should_use_inclusive] *)
Definition should_use_inclusive (current_prob best_prob threshold exact_match : Q)
    : bool :=
  Qgtb current_prob (best_prob + threshold) ||
  (Qgtb current_prob best_prob && Qgtb exact_match 20).

(** [recovery_pos], as chosen when an inclusive move is adopted. *)
Definition choose_recovery_pos (gs : GameState) (probs : Probs) : option Z :=
  if bool_decide (failed_boxes gs ≠ ∅) && Qgtb (p_exact_match probs) 20
  then max_key (failed_boxes gs)
  else None.

(** One pass of [for move_type in ['higher_equal', 'lower_equal']]. *)
Definition inclusive_step (gs : GameState) (pos : Z) (probs : Probs)
    (acc : Q * option Move) (mt : move_type) : Q * option Move :=
  let '(best_prob, best_move) := acc in
  let current_prob := prob_of probs mt in
  if should_use_inclusive current_prob best_prob (inclusive_threshold gs)
       (p_exact_match probs)
  then (current_prob, Some (pos, mt, choose_recovery_pos gs probs))
  else acc.

(** The body of [for pos, card in enumerate(self.game_state.visible_cards)]. *)
Definition position_step (gs : GameState) (acc : Q * option Move)
    (pc : Z * option Card) : Q * option Move :=
  match pc.2 with
  | None => acc
  | Some card =>
    match calculate_move_probabilities card (remaining_deck gs) with
    | None => acc
    | Some probs =>
      let acc1 := fold_left (plain_step pc.1 probs) [higher; lower] acc in
      if inclusive_moves_remaining gs >? 0
      then fold_left (inclusive_step gs pc.1 probs) [higher_equal; lower_equal] acc1
      else acc1
    end
  end.

(** [SimulatedGame.find_best_move], on the game state of the simulated game. *)
Definition find_best_move (gs : GameState) : option Move :=
  (fold_left (position_step gs) (enumerate (visible_cards gs)) ((-1)%Q, None)).2.

(** [SimulatedGame.make_best_move] *)
Definition make_best_move (gs : GameState) : outcome GameState bool :=
  let valid_positions :=
    (filter (λ pc : Z * option Card, pc.2 ≠ None) (enumerate (visible_cards gs))).*1 in
  match valid_positions with
  | [] => Returns false gs
  | position :: _ =>
    match find_best_move gs with
    | None =>
      match py_index (visible_cards gs) position with
      | Some (Some card) =>
        execute_move gs position (if value card <=? 7 then higher else lower) None
      | _ => Raises IndexError gs
      end
    | Some (position, mt, recovery_position) =>
      execute_move gs position mt recovery_position
    end
  end.

(** What [play_game] returns once the loop has ended. *)
Definition final_outcome (gs : GameState) : bool * Z * Stats :=
  let stats := get_game_stats gs in
  let won := has_won gs in
  (won, if won then active_positions stats else cards_remaining stats, stats).

(** The [while not self.game_state.is_game_over()] loop of [play_game]; every
    pass draws a card, so [fuel] is the size of the remaining deck. *)
Fixpoint play_loop (fuel : nat) (gs : GameState)
    : outcome GameState (bool * Z * Stats) :=
  if is_game_over gs then Returns (final_outcome gs) gs
  else match fuel with
       | O => Raises OutOfFuel gs
       | S fuel' =>
         match make_best_move gs with
         | Raises e gs' => Raises e gs'
         | Returns move_success gs' =>
           if negb move_success && all_failed (visible_cards gs')
           then let stats := get_game_stats gs' in
                Returns (false, cards_remaining stats, stats) gs'
           else play_loop fuel' gs'
         end
       end.

(** [SimulatedGame(inclusive_limit, inclusive_threshold, jokers).play_game()] *)
Definition play_game (R : Shuffler) (inclusive_limit : Z) (threshold : Q)
    (jokers : Z) (r : rng R) : outcome GameState (bool * Z * Stats) * rng R :=
  let '(gs, r') := new_game R jokers inclusive_limit threshold r in
  (play_loop (length (remaining_deck gs)) gs, r').

(** The dataclass [SimulationResults]. *)
Record SimulationResults := {
  total_games : Z;
  wins : Z;
  losses : Z;
  boxes_left_in_wins : list Z;
  cards_left_in_losses : list Z;
  moves_per_game : list Z;
  sr_inclusive_moves_used : list Z;
  sr_jokers_drawn : list Z
}.

End Simulator.

(** ** src/project_directory/BTBGamePlayer.py

    The game object and the part of the window object that the plays read
    and write (the three card counts); widgets, dialogs and status texts are
    left out. *)
Module GamePlayer.

(** The class [GameMove], the undo record. *)
Module GameMove.
Record t := {
  drawn_card : option Card;
  position : Z;
  old_card : option Card;
  used_inclusive : bool;
  failed_boxes : gmap Z Card;
  inclusive_moves_remaining : Z;
  count1 : Z;
  count2 : Z;
  count3 : Z
}.
End GameMove.

(** The class [NineBoxGame]; [move_history] is the deque with its right end,
    where [append] and [pop] work, at the head of the list. *)
Module NineBoxGame.
Record t := {
  deck : list Card;
  visible_cards : list (option Card);
  remaining_deck : list Card;
  move_history : list GameMove.t;
  inclusive_choices_remaining : Z;
  failed_boxes : gmap Z Card;
  num_jokers : Z;
  show_failed_cards : bool
}.

Definition init : t :=
  {| deck := build_deck 0; visible_cards := []; remaining_deck := [];
     move_history := []; inclusive_choices_remaining := 0; failed_boxes := ∅;
     num_jokers := 0; show_failed_cards := false |}.

Definition with_deck (g : t) (d : list Card) (n : Z) : t :=
  {| deck := d; visible_cards := visible_cards g;
     remaining_deck := remaining_deck g; move_history := move_history g;
     inclusive_choices_remaining := inclusive_choices_remaining g;
     failed_boxes := failed_boxes g; num_jokers := n;
     show_failed_cards := show_failed_cards g |}.

Definition with_visible_cards (g : t) (v : list (option Card)) : t :=
  {| deck := deck g; visible_cards := v;
     remaining_deck := remaining_deck g; move_history := move_history g;
     inclusive_choices_remaining := inclusive_choices_remaining g;
     failed_boxes := failed_boxes g; num_jokers := num_jokers g;
     show_failed_cards := show_failed_cards g |}.

Definition with_remaining_deck (g : t) (d : list Card) : t :=
  {| deck := deck g; visible_cards := visible_cards g;
     remaining_deck := d; move_history := move_history g;
     inclusive_choices_remaining := inclusive_choices_remaining g;
     failed_boxes := failed_boxes g; num_jokers := num_jokers g;
     show_failed_cards := show_failed_cards g |}.

Definition with_move_history (g : t) (h : list GameMove.t) : t :=
  {| deck := deck g; visible_cards := visible_cards g;
     remaining_deck := remaining_deck g; move_history := h;
     inclusive_choices_remaining := inclusive_choices_remaining g;
     failed_boxes := failed_boxes g; num_jokers := num_jokers g;
     show_failed_cards := show_failed_cards g |}.

Definition with_inclusive_choices_remaining (g : t) (n : Z) : t :=
  {| deck := deck g; visible_cards := visible_cards g;
     remaining_deck := remaining_deck g; move_history := move_history g;
     inclusive_choices_remaining := n;
     failed_boxes := failed_boxes g; num_jokers := num_jokers g;
     show_failed_cards := show_failed_cards g |}.

Definition with_failed_boxes (g : t) (f : gmap Z Card) : t :=
  {| deck := deck g; visible_cards := visible_cards g;
     remaining_deck := remaining_deck g; move_history := move_history g;
     inclusive_choices_remaining := inclusive_choices_remaining g;
     failed_boxes := f; num_jokers := num_jokers g;
     show_failed_cards := show_failed_cards g |}.

Definition with_show_failed_cards (g : t) (b : bool) : t :=
  {| deck := deck g; visible_cards := visible_cards g;
     remaining_deck := remaining_deck g; move_history := move_history g;
     inclusive_choices_remaining := inclusive_choices_remaining g;
     failed_boxes := failed_boxes g; num_jokers := num_jokers g;
     show_failed_cards := b |}.

(** [setup_with_jokers] *)
Definition setup_with_jokers (g : t) (joker_count : Z) : t :=
  with_deck g (build_deck joker_count) joker_count.

(** [shuffle_and_deal] *)
Definition shuffle_and_deal (R : Shuffler) (g : t) (r : rng R) : t * rng R :=
  let '(d, r') := shuffle R r (deck g) in
  (with_remaining_deck
     (with_visible_cards (with_deck g d (num_jokers g)) (Some <$> take 9 d))
     (drop 9 d),
   r').

(** [draw_card] *)
Definition draw_card (g : t) : option Card := head (remaining_deck g).

(** [remove_top_card] *)
Definition remove_top_card (g : t) : t :=
  with_remaining_deck g (tail (remaining_deck g)).

(** [set_inclusive_choices] *)
Definition set_inclusive_choices (g : t) (count : Z) : t :=
  with_inclusive_choices_remaining g count.

(** [use_inclusive_choice] *)
Definition use_inclusive_choice (g : t) : bool * t :=
  if inclusive_choices_remaining g >? 0
  then (true, with_inclusive_choices_remaining g (inclusive_choices_remaining g - 1))
  else (false, g).

(** The strings ['higher'], ['lower'] and ['equal'] of [compare_cards]. *)
Inductive comparison_result := cmp_higher | cmp_lower | cmp_equal.

Global Instance comparison_result_eq_dec : EqDecision comparison_result.
Proof. solve_decision. Defined.

(** [compare_cards] *)
Definition compare_cards (card1 card2 : Card) : comparison_result :=
  if is_joker card1 then cmp_equal
  else if value card1 =? value card2 then cmp_equal
  else if value card1 >? value card2 then cmp_higher else cmp_lower.

(** [undo_last_move] *)
Definition undo_last_move (g : t) : outcome t bool :=
  match move_history g with
  | [] => Returns false g
  | last_move :: history =>
    let g1 := with_move_history g history in
    match py_setitem (visible_cards g1) (GameMove.position last_move)
                     (GameMove.old_card last_move) with
    | None => Raises IndexError g1
    | Some visible =>
      let g2 := with_failed_boxes (with_visible_cards g1 visible)
                  (GameMove.failed_boxes last_move) in
      let g3 :=
        match GameMove.drawn_card last_move with
        | Some drawn =>
          if is_joker drawn
          then with_remaining_deck g2 (new_Card 0 "" true :: remaining_deck g2)
          else with_remaining_deck g2 (drawn :: remaining_deck g2)
        | None => g2
        end in
      Returns true
        (with_inclusive_choices_remaining g3
           (GameMove.inclusive_moves_remaining last_move))
    end
  end.

(** The entries that one pass of the loop of [calculate_probabilities] adds
    for [visible_card], as [(kind, percentage)] in the order of insertion. *)
Definition card_probabilities (g : t) (visible_card : Card)
    : list (move_type * Q) :=
  let total := Z.of_nat (length (remaining_deck g)) in
  if total =? 0 then []
  else
    let joker_count := count_if is_joker (remaining_deck g) in
    let regular_cards := filter (λ card, is_joker card = false) (remaining_deck g) in
    let higher_count :=
      count_if (λ card, value card >? value visible_card) regular_cards
      + joker_count in
    let lower_count :=
      count_if (λ card, value card <? value visible_card) regular_cards
      + joker_count in
    let equal_count :=
      count_if (λ card, value card =? value visible_card) regular_cards
      + joker_count in
    [(higher, percent higher_count (total + joker_count));
     (lower, percent lower_count (total + joker_count))]
    ++ (if inclusive_choices_remaining g >? 0
        then [(higher_equal, percent (higher_count + equal_count) (total + joker_count));
              (lower_equal, percent (lower_count + equal_count) (total + joker_count))]
        else []).

(** [calculate_probabilities]: the dict keyed by [(visible_card, kind)]; the
    position of the card stands for the card object. *)
Definition calculate_probabilities (g : t) : list ((Z * move_type) * Q) :=
  pc ← enumerate (visible_cards g);
  match pc.2 with
  | None => []
  | Some visible_card =>
    (λ e : move_type * Q, ((pc.1, e.1), e.2)) <$> card_probabilities g visible_card
  end.

End NineBoxGame.

(** The class [NineBoxGUI]: the game and the three running card counts. *)
Module NineBoxGUI.
Import NineBoxGame.

Record t := {
  game : NineBoxGame.t;
  count1 : Z;
  count2 : Z;
  count3 : Z
}.

Definition with_game (gui : t) (g : NineBoxGame.t) : t :=
  {| game := g; count1 := count1 gui; count2 := count2 gui; count3 := count3 gui |}.

(** [check_play_success] *)
Definition check_play_success (drawn_card target_card : Card)
    (player_choice : move_type) : bool :=
  if is_joker drawn_card then true
  else match player_choice with
       | higher => value drawn_card >? value target_card
       | lower => value drawn_card <? value target_card
       | higher_equal => value drawn_card >=? value target_card
       | lower_equal => value drawn_card <=? value target_card
       end.

Definition member (x : Z) (l : list Z) : bool := bool_decide (x ∈ l).

(** [update_counts] *)
Definition update_counts (gui : t) (card : option Card) : t :=
  match card with
  | None => gui
  | Some card =>
    if is_joker card then gui
    else
      let v := value card in
      {| game := game gui;
         count1 := if v >? 8 then count1 gui + 1
                   else if v <? 8 then count1 gui - 1 else count1 gui;
         count2 := if member v [12; 13; 14] then count2 gui + 2
                   else if member v [9; 10; 11] then count2 gui + 1
                   else if member v [5; 6; 7] then count2 gui - 1
                   else if member v [2; 3; 4] then count2 gui - 2
                   else count2 gui;
         count3 := if member v [13; 14] then count3 gui + 3
                   else if member v [11; 12] then count3 gui + 2
                   else if member v [9; 10] then count3 gui + 1
                   else if member v [6; 7] then count3 gui - 1
                   else if member v [4; 5] then count3 gui - 2
                   else if member v [2; 3] then count3 gui - 3
                   else count3 gui |}
  end.

(** How a call of [process_play] ended. *)
Inductive played :=
  | NoInclusiveChoices
  | NoMoreCards
  | Played (is_correct : bool) (recovery_offered : bool).

(** [offer_failed_box_recovery] opens its dialog when there is a failed
    position; the dialog does not block and changes nothing by itself. *)
Definition offer_failed_box_recovery (g : NineBoxGame.t) : bool :=
  bool_decide (failed_boxes g ≠ ∅).

(** [process_play] *)
Definition process_play (gui : t) (position : Z) (player_choice : move_type)
    : outcome t played :=
  let inclusive_at_start := inclusive_choices_remaining (game gui) in
  let used_inclusive := is_inclusive player_choice in
  let '(ok, g0) := if used_inclusive then use_inclusive_choice (game gui)
                   else (true, game gui) in
  if negb ok then Returns NoInclusiveChoices gui
  else
    let gui0 := with_game gui g0 in
    match py_index (visible_cards g0) position with
    | None => Raises IndexError gui0
    | Some target_card =>
      match draw_card g0 with
      | None => Returns NoMoreCards gui0
      | Some drawn_card =>
        let gui1 := update_counts gui0 (Some drawn_card) in
        let old_card := target_card in
        let move :=
          {| GameMove.drawn_card := Some drawn_card;
             GameMove.position := position;
             GameMove.old_card := old_card;
             GameMove.used_inclusive := used_inclusive;
             GameMove.failed_boxes := failed_boxes g0;
             GameMove.inclusive_moves_remaining := inclusive_at_start;
             GameMove.count1 := count1 gui1;
             GameMove.count2 := count2 gui1;
             GameMove.count3 := count3 gui1 |} in
        let g1 := with_move_history g0 (move :: move_history g0) in
        let gui2 := with_game gui1 g1 in
        let put (slot : option Card) :=
          default (visible_cards g1) (py_setitem (visible_cards g1) position slot) in
        if is_joker drawn_card then
          let g2 := with_visible_cards g1 (put (Some drawn_card)) in
          Returns (Played true (used_inclusive && offer_failed_box_recovery g2))
                  (with_game gui2 (remove_top_card g2))
        else
          match target_card with
          | None => Raises AttributeError gui2
          | Some target_card =>
            if is_joker target_card then
              let g2 := with_visible_cards g1 (put (Some drawn_card)) in
              Returns (Played true (used_inclusive && offer_failed_box_recovery g2))
                      (with_game gui2 (remove_top_card g2))
            else
              let actual_result := compare_cards drawn_card target_card in
              let is_correct :=
                check_play_success drawn_card target_card player_choice in
              if is_correct then
                let g2 := with_visible_cards g1 (put (Some drawn_card)) in
                Returns (Played true
                           (used_inclusive
                            && bool_decide (actual_result = cmp_equal)
                            && offer_failed_box_recovery g2))
                        (with_game gui2 (remove_top_card g2))
              else
                let g2 := with_visible_cards
                            (with_failed_boxes g1
                               (<[position := target_card]> (failed_boxes g1)))
                            (put None) in
                Returns (Played false false) (with_game gui2 (remove_top_card g2))
          end
      end
    end.

(** [recover_failed_box] *)
Definition recover_failed_box (gui : t) (position : Z) : outcome t unit :=
  let g := game gui in
  match failed_boxes g !! position with
  | None => Raises KeyError gui
  | Some recovered_card =>
    let move :=
      {| GameMove.drawn_card := None;
         GameMove.position := position;
         GameMove.old_card := None;
         GameMove.used_inclusive := false;
         GameMove.failed_boxes := failed_boxes g;
         GameMove.inclusive_moves_remaining := inclusive_choices_remaining g;
         GameMove.count1 := count1 gui;
         GameMove.count2 := count2 gui;
         GameMove.count3 := count3 gui |} in
    let g1 := with_move_history g (move :: move_history g) in
    match py_setitem (visible_cards g1) position (Some recovered_card) with
    | None => Raises IndexError (with_game gui g1)
    | Some visible =>
      let gui2 := update_counts (with_game gui (with_visible_cards g1 visible))
                    (Some recovered_card) in
      Returns tt
        (with_game gui2
           (with_failed_boxes (game gui2) (delete position (failed_boxes (game gui2)))))
    end
  end.

(** [new_game], with the answers of the setup dialog. *)
Definition new_game (R : Shuffler) (joker_count inclusive_choices : Z)
    (show_failed : bool) (r : rng R) : t * rng R :=
  let g := with_show_failed_cards
             (set_inclusive_choices
                (setup_with_jokers NineBoxGame.init joker_count) inclusive_choices)
             show_failed in
  let '(g', r') := shuffle_and_deal R g r in
  (foldl update_counts {| game := g'; count1 := 0; count2 := 0; count3 := 0 |}
     (visible_cards g'),
   r').

(** [undo_move] *)
Definition undo_move (gui : t) : outcome t bool :=
  match move_history (game gui) with
  | [] => Returns false gui
  | last_move :: _ =>
    match undo_last_move (game gui) with
    | Returns true g =>
      Returns true
        {| game := g; count1 := GameMove.count1 last_move;
           count2 := GameMove.count2 last_move;
           count3 := GameMove.count3 last_move |}
    | Returns false g => Returns false (with_game gui g)
    | Raises e g => Raises e (with_game gui g)
    end
  end.

End NineBoxGUI.

End GamePlayer.

(** ** src/BTBGameAid.py

    [CustomGameGUI] extends [NineBoxGUI]: the player names the card that was
    drawn instead of the game drawing the top of the deck. *)
Module GameAid.
Import GamePlayer GamePlayer.NineBoxGame GamePlayer.NineBoxGUI.

(** Python strings are sequences of code points, the strings here are their
    UTF-8 bytes: [s[:-1]] and [s[-1]] cut before the last lead byte. *)
Definition is_continuation_byte (a : ascii) : bool :=
  ((128 <=? N_of_ascii a) && (N_of_ascii a <? 192))%N.

Fixpoint split_last_rev (rev_bytes acc : list ascii) : list ascii * list ascii :=
  match rev_bytes with
  | [] => ([], acc)
  | b :: rest =>
    if is_continuation_byte b then split_last_rev rest (b :: acc)
    else (rest, b :: acc)
  end.

(** [(s[:-1], s[-1])]; [None] is the [IndexError] on the empty string. *)
Definition split_last_char (s : string) : option (string * string) :=
  match s with
  | EmptyString => None
  | _ =>
    let '(r, c) := split_last_rev (reverse (list_ascii_of_string s)) [] in
    Some (string_of_list_ascii (reverse r), string_of_list_ascii c)
  end.

Definition digit_of (a : ascii) : option Z :=
  let n := Z.of_N (N_of_ascii a) in
  if (48 <=? n) && (n <=? 57) then Some (n - 48) else None.

Fixpoint parse_digits (l : list ascii) (acc : Z) : option Z :=
  match l with
  | [] => Some acc
  | a :: l' =>
    match digit_of a with
    | Some d => parse_digits l' (10 * acc + d)
    | None => None
    end
  end.

(** [int(s)] on a string of decimal digits, the only numerals that
    [Card.__str__] writes; [None] is [ValueError]. *)
Definition py_int (s : string) : option Z :=
  match s with
  | EmptyString => None
  | _ => parse_digits (list_ascii_of_string s) 0
  end.

(** [value_map[value]]; [None] is [KeyError]. *)
Definition value_map (s : string) : option Z :=
  if bool_decide (s = "A") then Some 14
  else if bool_decide (s = "J") then Some 11
  else if bool_decide (s = "Q") then Some 12
  else if bool_decide (s = "K") then Some 13
  else None.

(** [CustomGameGUI.parse_card]; the error is the exception raised. *)
Definition parse_card (card_str : string) : exn + Card :=
  if bool_decide (card_str = "🃏") then inr (new_Card 0 "" true)
  else
    match split_last_char card_str with
    | None => inl IndexError
    | Some (value, suit) =>
      match py_int value with
      | Some v => inr (new_Card v suit false)
      | None =>
        match value_map value with
        | Some v => inr (new_Card v suit false)
        | None => inl KeyError
        end
      end
    end.

(** [setup_initial_cards], when the ninth card has been picked:
    [selected_cards] are the texts of the nine buttons pressed.  [None] is an
    exception of [parse_card], which the texts of the buttons never raise. *)
Definition setup_initial_cards (gui : NineBoxGUI.t) (selected_cards : list string)
    : option NineBoxGUI.t :=
  visible ← mapM (λ c, if bool_decide (c = "🃏") then Some (new_Card 0 "" true)
                       else match parse_card c with
                            | inr card => Some card
                            | inl _ => None
                            end) selected_cards;
  let g := game gui in
  let remaining :=
    filter (λ card, existsb (λ visible_card,
                       bool_decide (card_str card = card_str visible_card))
                      visible = false) (deck g) in
  Some (foldl update_counts
          (with_game gui (with_remaining_deck
                            (with_visible_cards g (Some <$> visible)) remaining))
          (Some <$> visible)).

(** [CustomGameGUI.new_game], with the answers of the setup dialog and the
    nine cards picked; [CustomNineBoxGame.shuffle_and_deal] does nothing. *)
Definition new_game (joker_count inclusive_choices : Z) (show_failed : bool)
    (selected_cards : list string) : option NineBoxGUI.t :=
  let g := with_show_failed_cards
             (set_inclusive_choices
                (setup_with_jokers NineBoxGame.init joker_count) inclusive_choices)
             show_failed in
  setup_initial_cards {| game := g; count1 := 0; count2 := 0; count3 := 0 |}
    selected_cards.

(** [actual_result == player_choice], a comparison of two strings. *)
Definition same_word (actual_result : comparison_result)
    (player_choice : move_type) : bool :=
  match actual_result, player_choice with
  | cmp_higher, higher => true
  | cmp_lower, lower => true
  | _, _ => false
  end.

(** [is_correct] as [CustomGameGUI.process_play] computes it. *)
Definition is_correct (player_choice : move_type)
    (actual_result : comparison_result) : bool :=
  if is_inclusive player_choice then
    (bool_decide (player_choice = higher_equal) &&
     (bool_decide (actual_result = cmp_higher) || bool_decide (actual_result = cmp_equal)))
    || (bool_decide (player_choice = lower_equal) &&
        (bool_decide (actual_result = cmp_lower) || bool_decide (actual_result = cmp_equal)))
  else same_word actual_result player_choice.

(** [CustomGameGUI.process_play] *)
Definition process_play (gui : NineBoxGUI.t) (position : Z)
    (player_choice : move_type) (drawn_card target_card : Card)
    (actual_result : comparison_result) : outcome NineBoxGUI.t played :=
  let used_inclusive := is_inclusive player_choice in
  let correct := is_correct player_choice actual_result in
  let g := game gui in
  match py_index (visible_cards g) position with
  | None => Raises IndexError gui
  | Some old_card =>
    let move :=
      {| GameMove.drawn_card := Some drawn_card;
         GameMove.position := position;
         GameMove.old_card := old_card;
         GameMove.used_inclusive := used_inclusive;
         GameMove.failed_boxes := failed_boxes g;
         GameMove.inclusive_moves_remaining := inclusive_choices_remaining g;
         GameMove.count1 := count1 gui;
         GameMove.count2 := count2 gui;
         GameMove.count3 := count3 gui |} in
    let g1 := with_move_history g (move :: move_history g) in
    let gui1 := update_counts (with_game gui g1) (Some drawn_card) in
    let put (slot : option Card) :=
      default (visible_cards g1) (py_setitem (visible_cards g1) position slot) in
    let g2 :=
      if correct then with_visible_cards g1 (put (Some drawn_card))
      else with_visible_cards
             (with_failed_boxes g1 (<[position := target_card]> (failed_boxes g1)))
             (put None) in
    let offered :=
      correct && used_inclusive && bool_decide (actual_result = cmp_equal)
      && offer_failed_box_recovery g2 in
    let g3 :=
      with_remaining_deck g2
        (filter (λ card, card_str card ≠ card_str drawn_card) (remaining_deck g2)) in
    Returns (Played correct offered) (with_game gui1 g3)
  end.



End GameAid.

(** ** src/project_directory/BTBOptimizer.py *)
Module Optimizer.
Import Simulator.

(** The key [(jokers, moves, threshold)] of a cell. *)
Definition Params : Type := Z * Z * Q.

(** Equality of two keys, as the dict compares them: number by number. *)
Definition params_eqb (a b : Params) : bool :=
  (a.1.1 =? b.1.1) && (a.1.2 =? b.1.2) && Qeq_bool a.2 b.2.

(** [d[k] = v] on a dict, which keeps the order of insertion. *)
Fixpoint dict_set {V : Type} (d : list (Params * V)) (k : Params) (v : V)
    : list (Params * V) :=
  match d with
  | [] => [(k, v)]
  | kv :: d' =>
    if params_eqb kv.1 k then (kv.1, v) :: d' else kv :: dict_set d' k v
  end.

(** [d.get(k)] *)
Fixpoint dict_get {V : Type} (d : list (Params * V)) (k : Params) : option V :=
  match d with
  | [] => None
  | kv :: d' => if params_eqb kv.1 k then Some kv.2 else dict_get d' k
  end.

(** [s.add(x)] on a set kept as a list without repetition. *)
Definition set_add {A : Type} (eqb : A → A → bool) (s : list A) (x : A) : list A :=
  if existsb (eqb x) s then s else s ++ [x].

(** The class [OptimizationResults]. *)
Record OptimizationResults := {
  results : list (Params * SimulationResults);
  parameter_space_jokers : list Z;
  parameter_space_moves : list Z;
  parameter_space_thresholds : list Q;
  best_params : option Params;
  best_win_rate : Q
}.

(** [OptimizationResults.__init__] *)
Definition init : OptimizationResults :=
  {| results := []; parameter_space_jokers := []; parameter_space_moves := [];
     parameter_space_thresholds := []; best_params := None; best_win_rate := 0 |}.

(** [(result.wins / result.total_games) * 100] *)
Definition win_rate_of (result : SimulationResults) : Q :=
  percent (wins result) (total_games result).

(** [OptimizationResults.add_result] *)
Definition add_result (o : OptimizationResults) (jokers moves : Z)
    (threshold : Q) (result : SimulationResults)
    : outcome OptimizationResults unit :=
  let recorded best_p best_r :=
    {| results := dict_set (results o) (jokers, moves, threshold) result;
       parameter_space_jokers := set_add Z.eqb (parameter_space_jokers o) jokers;
       parameter_space_moves := set_add Z.eqb (parameter_space_moves o) moves;
       parameter_space_thresholds :=
         set_add Qeq_bool (parameter_space_thresholds o) threshold;
       best_params := best_p; best_win_rate := best_r |} in
  if total_games result =? 0
  then Raises ZeroDivisionError (recorded (best_params o) (best_win_rate o))
  else
    let win_rate := win_rate_of result in
    if Qgtb win_rate (best_win_rate o)
    then Returns tt (recorded (Some (jokers, moves, threshold)) win_rate)
    else Returns tt (recorded (best_params o) (best_win_rate o)).

(** [OptimizerGUI.validate_inputs], on the numbers read from the entries. *)
Definition validate_inputs (sim_count joker_min joker_max moves_min moves_max : Z)
    (threshold_min threshold_max : Q) : bool :=
  if sim_count <=? 0 then false
  else if negb ((0 <=? joker_min) && (joker_min <=? joker_max) && (joker_max <=? 2))
  then false
  else if negb ((0 <=? moves_min) && (moves_min <=? moves_max) && (moves_max <=? 45))
  then false
  else if negb (Qle_bool 0 threshold_min && Qle_bool threshold_min threshold_max
                && Qle_bool threshold_max 100)
  then false
  else true.

(** [for _ in range(sim_count)]: the games of one cell, with the running
    [wins] and [total_jokers_found]. *)
Fixpoint simulate (R : Shuffler) (n : nat) (moves : Z) (threshold : Q)
    (jokers : Z) (wins total_jokers_found : Z) (r : rng R)
    : outcome (rng R) (Z * Z) :=
  match n with
  | O => Returns (wins, total_jokers_found) r
  | S n' =>
    match play_game R moves threshold jokers r with
    | (Returns (won, _, stats) _, r') =>
      simulate R n' moves threshold jokers
        (if won then wins + 1 else wins)
        (total_jokers_found + stat_jokers_drawn stats) r'
    | (Raises e _, r') => Raises e r'
    end
  end.

(** The [SimulationResults] that [run_optimization] builds for a cell. *)
Definition cell_result (sim_count wins total_jokers_found : Z)
    : SimulationResults :=
  {| total_games := sim_count; wins := wins; losses := sim_count - wins;
     boxes_left_in_wins := []; cards_left_in_losses := [];
     moves_per_game := []; sr_inclusive_moves_used := [];
     sr_jokers_drawn := [total_jokers_found] |}.

(** [itertools.product(joker_range, moves_range, threshold_range)] *)
Definition product (joker_range moves_range : list Z) (threshold_range : list Q)
    : list Params :=
  jokers ← joker_range; moves ← moves_range; threshold ← threshold_range;
  [(jokers, moves, threshold)].

(** The loop of [run_optimization] over the cells; an exception ends it and
    leaves the results recorded so far. *)
Fixpoint run_cells (R : Shuffler) (sim_count : Z) (cells : list Params)
    (o : OptimizationResults) (r : rng R)
    : outcome (OptimizationResults * rng R) unit :=
  match cells with
  | [] => Returns tt (o, r)
  | (jokers, moves, threshold) :: rest =>
    let max_moves := 43 + jokers in
    if moves >? max_moves then run_cells R sim_count rest o r
    else
      match simulate R (Z.to_nat sim_count) moves threshold jokers 0 0 r with
      | Raises e r' => Raises e (o, r')
      | Returns (wins, total_jokers_found) r' =>
        match add_result o jokers moves threshold
                (cell_result sim_count wins total_jokers_found) with
        | Raises e o' => Raises e (o', r')
        | Returns _ o' => run_cells R sim_count rest o' r'
        end
      end
  end.

(** [OptimizerGUI.run_optimization]; [threshold_range] is the array that
    [np.arange(threshold_min, threshold_max + step, step)] returned, and
    [None] is the return after the box that reports invalid input. *)
Definition run_optimization (R : Shuffler)
    (sim_count joker_min joker_max moves_min moves_max : Z)
    (threshold_min threshold_max : Q) (threshold_range : list Q) (r : rng R)
    : option (outcome (OptimizationResults * rng R) unit) :=
  if validate_inputs sim_count joker_min joker_max moves_min moves_max
       threshold_min threshold_max
  then Some (run_cells R sim_count
               (product (py_range joker_min (joker_max + 1))
                        (py_range moves_min (moves_max + 1)) threshold_range)
               init r)
  else None.

End Optimizer.

(** ** Notions used to state the properties *)

(** The counts the probabilities are made of. *)
Definition joker_count (deck : list Card) : Z := count_if is_joker deck.





(** A generator that leaves the deck as it is built, for worked examples. *)
Definition no_shuffle : Shuffler :=
  {| rng := unit; shuffle := λ r deck, (deck, r) |}.

(** The condition under which [execute_move] goes on to [recover_position]
    when the caller has passed a recovery position. *)
Definition recovery_eligible (mt : move_type) (drawn_card target_card : Card)
    : bool :=
  is_inclusive mt &&
  (is_joker drawn_card || is_joker target_card
   || (value drawn_card =? value target_card)).

(** One step of a simulated game, and one event of a game in the window. *)
Definition sim_step (gs gs' : Simulator.GameState) : Prop :=
  gs' = state_of (Simulator.make_best_move gs).

Inductive gui_step : GamePlayer.NineBoxGUI.t → GamePlayer.NineBoxGUI.t → Prop :=
  | gui_step_play gui position player_choice :
      gui_step gui
        (state_of (GamePlayer.NineBoxGUI.process_play gui position player_choice))
  | gui_step_recover gui position :
      gui_step gui (state_of (GamePlayer.NineBoxGUI.recover_failed_box gui position))
  | gui_step_undo gui :
      gui_step gui (state_of (GamePlayer.NineBoxGUI.undo_move gui)).

(** The budget of the game in the window and the budgets written in its
    undo records are zero or above. *)
Definition budget_inv (gui : GamePlayer.NineBoxGUI.t) : Prop :=
  0 ≤ GamePlayer.NineBoxGame.inclusive_choices_remaining (GamePlayer.NineBoxGUI.game gui)
  ∧ Forall (λ m, 0 ≤ GamePlayer.GameMove.inclusive_moves_remaining m)
      (GamePlayer.NineBoxGame.move_history (GamePlayer.NineBoxGUI.game gui)).


(** The cards a game holds: in the slots, in the failed boxes and in the
    deck. *)
Definition held_cards (visible : list (option Card)) (failed : gmap Z Card)
    (deck : list Card) : list Card :=
  omap id visible ++ (map_to_list failed).*2 ++ deck.


(** The failed boxes of a simulated game are the empty slots: every key of
    [failed_boxes] is a position of the grid whose slot is empty. *)
Definition sim_wf (gs : Simulator.GameState) : Prop :=
  ∀ k, is_Some (Simulator.failed_boxes gs !! k) →
       0 ≤ k ∧ Simulator.visible_cards gs !! Z.to_nat k = Some None.

(** The outcomes of [n] games played one after the other from the state
    [r] of the generator. *)
Fixpoint games_played (R : Shuffler) (n : nat) (moves : Z) (threshold : Q)
    (jokers : Z) (r : rng R) : list (bool * Z * Simulator.Stats) :=
  match n with
  | O => []
  | S n' =>
    match Simulator.play_game R moves threshold jokers r with
    | (Returns out _, r') => out :: games_played R n' moves threshold jokers r'
    | (Raises _ _, _) => []
    end
  end.

(** The games won, and the jokers drawn, in a list of outcomes. *)
Definition wins_of (games : list (bool * Z * Simulator.Stats)) : Z :=
  count_if (λ game, game.1.1) games.

Definition jokers_found (games : list (bool * Z * Simulator.Stats)) : Z :=
  foldr (λ game acc, Simulator.stat_jokers_drawn game.2 + acc) 0 games.

(** A key with its threshold in lowest terms: two keys are equal as the
    dict compares them exactly when these are the same. *)
Definition key_norm (k : Optimizer.Params) : Z * Z * Q := (k.1.1, k.1.2, Qred k.2).

(** An entry of the results that is the record of [sim_count] games played
    for its key, a key that the grid search does not skip. *)
Definition cell_recorded (R : Shuffler) (sim_count : Z)
    (kr : Optimizer.Params * Simulator.SimulationResults) : Prop :=
  kr.1.1.2 ≤ 43 + kr.1.1.1
  ∧ ∃ r0 : rng R,
      let games := games_played R (Z.to_nat sim_count) kr.1.1.2 kr.1.2 kr.1.1.1 r0 in
      length games = Z.to_nat sim_count
      ∧ kr.2 = Optimizer.cell_result sim_count (wins_of games) (jokers_found games).

(** The running best win rate after the entries [added], from [best]. *)
Definition best_after (best : Q)
    (added : list (Optimizer.Params * Simulator.SimulationResults)) : Q :=
  fold_left (λ b kr, if Qgtb (Optimizer.win_rate_of kr.2) b
                     then Optimizer.win_rate_of kr.2 else b) added best.

(** The cards a simulated game holds. *)
Definition sim_held (gs : Simulator.GameState) : list Card :=
  held_cards (Simulator.visible_cards gs) (Simulator.failed_boxes gs)
    (Simulator.remaining_deck gs).


(** Case analysis on the comparisons of two card values in the goal. *)
Ltac case_compare :=
  repeat match goal with
         | |- context [?a >? ?b] => destruct (Z.gtb_spec a b); try lia
         | |- context [?a <? ?b] => destruct (Z.ltb_spec a b); try lia
         | |- context [?a >=? ?b] => destruct (Z.geb_spec a b); try lia
         | |- context [?a <=? ?b] => destruct (Z.leb_spec a b); try lia
         end.

(** * Properties *)

(** ** Counting and percentages *)

Lemma Qgtb_spec (x y : Q) : Qgtb x y = true ↔ (y < x)%Q.
Proof.
  unfold Qgtb. rewrite negb_true_iff, <- not_true_iff_false, Qle_bool_iff.
  split; [apply Qnot_le_lt | apply Qlt_not_le].
Qed.

Lemma Qgtb_false (x y : Q) : Qgtb x y = false ↔ (x <= y)%Q.
Proof. unfold Qgtb. rewrite negb_false_iff. apply Qle_bool_iff. Qed.

Lemma count_if_nil {A : Type} (f : A → bool) : count_if f [] = 0.
Proof. reflexivity. Qed.

Lemma count_if_cons {A : Type} (f : A → bool) (x : A) (l : list A) :
  count_if f (x :: l) = (if f x then 1 else 0) + count_if f l.
Proof.
  unfold count_if. rewrite filter_cons.
  destruct (f x); case_decide; try done; simpl length; lia.
Qed.

Lemma count_if_nonneg {A : Type} (f : A → bool) (l : list A) : 0 ≤ count_if f l.
Proof. unfold count_if. lia. Qed.

Lemma count_if_le_length {A : Type} (f : A → bool) (l : list A) :
  count_if f l ≤ Z.of_nat (length l).
Proof. unfold count_if. pose proof (length_filter (λ x, f x = true) l). lia. Qed.



Section Probabilities.
Import Simulator GamePlayer.NineBoxGame.




End Probabilities.

Section ProbabilitiesAgree.
Import Simulator GamePlayer.NineBoxGame.




End ProbabilitiesAgree.

(** ** Winning and the end of the game *)

Section GameOver.
Import Simulator.

Lemma all_failed_spec (visible : list (option Card)) :
  all_failed visible = true ↔ ∀ slot, slot ∈ visible → slot = None.
Proof.
  unfold all_failed. rewrite forallb_forall. split.
  - intros H slot Hin. apply list_elem_of_In, H in Hin.
    by apply bool_decide_eq_true in Hin.
  - intros H slot Hin. apply bool_decide_eq_true, H. by apply list_elem_of_In.
Qed.

Lemma some_active_spec (visible : list (option Card)) :
  existsb (λ card, bool_decide (card ≠ None)) visible = true
  ↔ ∃ i card, visible !! i = Some (Some card).
Proof.
  rewrite existsb_exists. split.
  - intros (slot & Hin & Hslot). apply bool_decide_eq_true in Hslot.
    apply list_elem_of_In, list_elem_of_lookup in Hin as [i Hi].
    destruct slot as [card|]; [|done]. by exists i, card.
  - intros (i & card & Hi). exists (Some card). split.
    + apply list_elem_of_In, list_elem_of_lookup. by exists i.
    + by apply bool_decide_eq_true.
Qed.

(** C6. [has_won] holds exactly when the deck is empty and some slot holds a
    card; [is_game_over] holds exactly when the deck is empty or every slot
    is empty; with an empty deck and every slot empty the game is over and
    not won. *)
Theorem C6_has_won_and_is_game_over (gs : GameState) :
  (has_won gs = true
   ↔ remaining_deck gs = [] ∧ ∃ i card, visible_cards gs !! i = Some (Some card))
  ∧ (is_game_over gs = true
     ↔ remaining_deck gs = [] ∨ ∀ slot, slot ∈ visible_cards gs → slot = None)
  ∧ (remaining_deck gs = [] ∧ (∀ slot, slot ∈ visible_cards gs → slot = None)
     → is_game_over gs = true ∧ has_won gs = false).
Proof.
  assert (Hwon : has_won gs = true
    ↔ remaining_deck gs = [] ∧ ∃ i card, visible_cards gs !! i = Some (Some card)).
  { unfold has_won. rewrite andb_true_iff, bool_decide_eq_true, some_active_spec.
    done. }
  assert (Hover : is_game_over gs = true
    ↔ remaining_deck gs = [] ∨ ∀ slot, slot ∈ visible_cards gs → slot = None).
  { unfold is_game_over. rewrite orb_true_iff, bool_decide_eq_true, all_failed_spec.
    tauto. }
  split; [exact Hwon | split; [exact Hover|]].
  intros [Hdeck Hall]. split.
  - apply Hover. by left.
  - apply not_true_iff_false. intros Hw. apply Hwon in Hw as (_ & i & card & Hi).
    apply list_elem_of_lookup_2, Hall in Hi. discriminate Hi.
Qed.

(** The theorem at the end of a lost game: no card in the deck, nine empty
    slots. *)
Lemma C6_has_won_and_is_game_over_witness :
  let gs := init_GameState (replicate 9 None) [] 5 5 in
  is_game_over gs = true ∧ has_won gs = false.
Proof.
  intros gs. apply (C6_has_won_and_is_game_over gs). split; [reflexivity|].
  intros slot Hin. apply elem_of_replicate in Hin as [-> _]. reflexivity.
Defined.

End GameOver.

(** ** Jokers always succeed *)

Section Jokers.
Import Simulator GamePlayer GamePlayer.NineBoxGame GamePlayer.NineBoxGUI.

(** In the simulator a joker, drawn or played on, makes every prediction
    succeed. *)
Lemma check_move_success_joker (mt : move_type) (drawn_card target_card : Card) :
  is_joker drawn_card = true ∨ is_joker target_card = true →
  check_move_success mt drawn_card target_card = true.
Proof.
  intros [H|H]; unfold check_move_success; rewrite H; [done|].
  by rewrite orb_true_r.
Qed.

(** So it does in [NineBoxGUI.process_play], once a card is drawn on a slot
    that holds a card. *)
Lemma NineBoxGUI_process_play_joker (gui : NineBoxGUI.t) (position : Z)
    (player_choice : move_type) (drawn_card target_card : Card) :
  (is_inclusive player_choice = true →
   inclusive_choices_remaining (game gui) > 0) →
  draw_card (game gui) = Some drawn_card →
  py_index (visible_cards (game gui)) position = Some (Some target_card) →
  is_joker drawn_card = true ∨ is_joker target_card = true →
  ∃ offered gui',
    NineBoxGUI.process_play gui position player_choice
    = Returns (Played true offered) gui'.
Proof.
  intros Hbudget Hdraw Htarget Hjoker. unfold NineBoxGUI.process_play.
  destruct (is_inclusive player_choice) eqn:Hincl.
  - unfold use_inclusive_choice.
    specialize (Hbudget eq_refl). apply Z.gt_lt, Z.gtb_lt in Hbudget.
    rewrite Hbudget. cbn [negb]. cbn -[py_index py_setitem].
    unfold draw_card in *. cbn in *. rewrite Htarget, Hdraw.
    destruct (is_joker drawn_card) eqn:Hd; [eauto|].
    destruct Hjoker as [?|Ht]; [done|]. rewrite Ht. eauto.
  - cbn [negb]. unfold draw_card in *. rewrite Htarget, Hdraw.
    destruct (is_joker drawn_card) eqn:Hd; [eauto|].
    destruct Hjoker as [?|Ht]; [done|]. rewrite Ht. eauto.
Qed.


End Jokers.

(** ** Positions that cannot be played *)

Section Positions.
Import Simulator.

(** A position at or past the end of the grid, or one whose slot is empty,
    is refused and nothing changes. *)
Lemma execute_move_refused (gs : GameState) (position : Z) (mt : move_type)
    (recovery_position : option Z) :
  Z.of_nat (length (visible_cards gs)) ≤ position
  ∨ py_index (visible_cards gs) position = Some None →
  execute_move gs position mt recovery_position = Returns false gs.
Proof.
  intros H. unfold execute_move. destruct (remaining_deck gs); [done|].
  destruct (position >=? _) eqn:Hge; [done|].
  destruct H as [H|H]; [lia|]. by rewrite H.
Qed.

(** A position below minus the size of the grid raises [IndexError] before
    anything is changed. *)
Lemma execute_move_index_error (gs : GameState) (position : Z) (mt : move_type)
    (recovery_position : option Z) :
  remaining_deck gs ≠ [] →
  position < - Z.of_nat (length (visible_cards gs)) →
  execute_move gs position mt recovery_position = Raises IndexError gs.
Proof.
  intros Hdeck H. unfold execute_move. destruct (remaining_deck gs); [done|].
  destruct (position >=? _) eqn:Hge; [lia|].
  unfold py_index. destruct (0 <=? position) eqn:H0; [lia|].
  destruct (- _ <=? position) eqn:H1; [lia|]. done.
Qed.

Lemma recover_position_frame (gs : GameState) (p : Z) :
  remaining_deck (state_of (recover_position gs p)) = remaining_deck gs
  ∧ moves_used (state_of (recover_position gs p)) = moves_used gs.
Proof.
  unfold recover_position. destruct (failed_boxes gs !! p); [|done].
  by destruct (py_setitem _ _ _).
Qed.

(** A position from minus the size of the grid to -1 is not refused: Python
    reads it from the end of the grid, and when that slot holds a card the
    move is made, a card is drawn and the move is counted. *)
Lemma execute_move_negative_position (gs : GameState) (position : Z)
    (mt : move_type) (recovery_position : option Z)
    (drawn_card target_card : Card) (deck' : list Card) :
  remaining_deck gs = drawn_card :: deck' →
  - Z.of_nat (length (visible_cards gs)) ≤ position < 0 →
  visible_cards gs !! Z.to_nat (Z.of_nat (length (visible_cards gs)) + position)
  = Some (Some target_card) →
  let gs' := state_of (execute_move gs position mt recovery_position) in
  remaining_deck gs' = deck' ∧ moves_used gs' = moves_used gs + 1.
Proof.
  intros Hdeck Hneg Htarget. cbn zeta. unfold execute_move. rewrite Hdeck.
  destruct (position >=? _) eqn:Hge; [lia|].
  unfold py_index. destruct (0 <=? position) eqn:H0; [lia|].
  destruct (- _ <=? position) eqn:H1; [|lia]. rewrite Htarget.
  destruct (check_move_success _ _ _); [|done].
  destruct (is_inclusive mt); [|by destruct recovery_position].
  destruct recovery_position as [p|]; [|done]. destruct (_ || _); [|done].
  match goal with |- context [recover_position ?g p] =>
    pose proof (recover_position_frame g p) as [Hd Hm];
    destruct (recover_position g p) end; cbn in Hd, Hm |- *; by rewrite Hd, Hm.
Qed.

(** C8 fails for the positions -9 to -1: the guard of [execute_move] tests
    [position >= len(self.visible_cards)] only, and Python reads
    [visible_cards[-1]] as the last slot.  On a game dealt from the unshuffled
    deck, [execute_move(-1, 'higher')] draws the ten of spades and puts it on
    the nine of spades in slot 8. *)
Lemma C8_negative_position_is_played :
  let gs := (new_game no_shuffle 0 5 5 tt).1 in
  let r := execute_move gs (-1) higher None in
  visible_cards gs !! 8%nat = Some (Some (new_Card 9 "♠" false))
  ∧ head (remaining_deck gs) = Some (new_Card 10 "♠" false)
  ∧ returned r = Some true
  ∧ visible_cards (state_of r) !! 8%nat = Some (Some (new_Card 10 "♠" false))
  ∧ remaining_deck (state_of r) = tail (remaining_deck gs)
  ∧ moves_used gs = 0 ∧ moves_used (state_of r) = 1.
Proof. repeat split. Qed.

End Positions.

(** ** Python indexing *)

Lemma py_index_is_Some {A : Type} (l : list A) (i : Z) :
  is_Some (py_index l i) ↔ - Z.of_nat (length l) ≤ i < Z.of_nat (length l).
Proof.
  unfold py_index. destruct (0 <=? i) eqn:H0.
  - rewrite lookup_lt_is_Some. lia.
  - destruct (- _ <=? i) eqn:H1.
    + rewrite lookup_lt_is_Some. lia.
    + split; [intros [? ?]; done | lia].
Qed.

Lemma py_setitem_is_Some {A : Type} (l : list A) (i : Z) (x : A) :
  is_Some (py_setitem l i x) ↔ - Z.of_nat (length l) ≤ i < Z.of_nat (length l).
Proof.
  unfold py_setitem. destruct (0 <=? i) eqn:H0.
  - destruct (i <? _) eqn:H1; split; try (intros [? ?]; done); try lia; eauto.
  - destruct (- _ <=? i) eqn:H1; split; try (intros [? ?]; done); try lia; eauto.
Qed.

Lemma py_setitem_length {A : Type} (l l' : list A) (i : Z) (x : A) :
  py_setitem l i x = Some l' → length l' = length l.
Proof.
  unfold py_setitem. intros H.
  repeat match type of H with (if ?c then _ else _) = _ => destruct c end;
    simplify_eq; apply length_insert.
Qed.

Lemma py_index_setitem_eq {A : Type} (l l' : list A) (i : Z) (x : A) :
  py_setitem l i x = Some l' → py_index l' i = Some x.
Proof.
  intros H. pose proof (py_setitem_length _ _ _ _ H) as Hlen.
  unfold py_setitem in H. unfold py_index. rewrite Hlen.
  destruct (0 <=? i) eqn:H0.
  - destruct (i <? _) eqn:H1; simplify_eq. apply list_lookup_insert_eq. lia.
  - destruct (- _ <=? i) eqn:H1; simplify_eq. apply list_lookup_insert_eq. lia.
Qed.

(** ** Recovery *)

Section Recovery.
Import Simulator.

Lemma recover_position_failed_boxes (gs gs' : GameState) (p : Z) (b : bool) :
  recover_position gs p = Returns b gs' →
  failed_boxes gs' = delete p (failed_boxes gs)
  ∧ ∀ card, failed_boxes gs !! p = Some card →
      py_index (visible_cards gs') p = Some (Some card).
Proof.
  unfold recover_position. intros H.
  destruct (failed_boxes gs !! p) as [card|] eqn:Hp.
  - destruct (py_setitem _ _ _) as [visible'|] eqn:Hset; simplify_eq. cbn.
    split; [done|]. intros ? [= <-]. by eapply py_index_setitem_eq.
  - simplify_eq. split; [|done]. symmetry. by apply delete_id.
Qed.

(** C5 (as amended). [execute_move] reports no offer of recovery: it
    recovers by itself.  When a card is drawn on a slot that holds one, the
    move succeeds whenever it is inclusive and the drawn card or the target
    card is a joker or the two values are equal; in exactly that case, and
    when the caller has passed a recovery position, that position leaves
    [failed_boxes] (if it was there) and its slot gets back the card that
    had failed.  Otherwise a successful move leaves [failed_boxes] as it is
    and a failed one adds the played position. *)
Theorem C5_recovery_inside_execute_move (gs : GameState) (position : Z)
    (mt : move_type) (recovery_position : option Z)
    (drawn_card target_card : Card) (deck' : list Card) :
  remaining_deck gs = drawn_card :: deck' →
  position < Z.of_nat (length (visible_cards gs)) →
  py_index (visible_cards gs) position = Some (Some target_card) →
  (∀ p, recovery_position = Some p → is_Some (failed_boxes gs !! p) →
        is_Some (py_index (visible_cards gs) p)) →
  let success := check_move_success mt drawn_card target_card in
  let eligible := recovery_eligible mt drawn_card target_card in
  ∃ gs', execute_move gs position mt recovery_position = Returns success gs'
    ∧ (eligible = true → success = true)
    ∧ failed_boxes gs'
      = (if success then
           match recovery_position with
           | Some p => if eligible then delete p (failed_boxes gs)
                       else failed_boxes gs
           | None => failed_boxes gs
           end
         else <[position := target_card]> (failed_boxes gs))
    ∧ (∀ p card, recovery_position = Some p → eligible = true →
         failed_boxes gs !! p = Some card →
         py_index (visible_cards gs') p = Some (Some card)).
Proof.
  intros Hdeck Hlt Htarget Hvalid success eligible.
  assert (Hsucc : eligible = true → success = true).
  { unfold eligible, recovery_eligible, success, check_move_success.
    destruct mt, (is_joker drawn_card), (is_joker target_card); cbn; try done;
      intros ->%Z.eqb_eq; [apply Z.geb_le | apply Z.leb_le]; lia. }
  assert (Helig : is_inclusive mt = true →
            is_exact_match drawn_card target_card || is_joker drawn_card = eligible).
  { intros Hi. unfold eligible, recovery_eligible, is_exact_match. rewrite Hi.
    destruct (is_joker drawn_card), (is_joker target_card); cbn;
      by rewrite ?orb_false_r, ?orb_true_r. }
  unfold execute_move. rewrite Hdeck.
  destruct (position >=? _) eqn:Hge; [lia|]. rewrite Htarget. fold success.
  destruct (py_setitem (visible_cards gs) position (Some drawn_card))
    as [visible1|] eqn:Hset; cycle 1.
  { exfalso. apply eq_None_not_Some in Hset. apply Hset, py_setitem_is_Some.
    by apply py_index_is_Some. }
  destruct success eqn:Hs; cycle 1.
  { eexists. split; [done|]. split; [done|]. split; [done|].
    intros p card _ He. apply Hsucc in He. done. }
  destruct (is_inclusive mt) eqn:Hi; cycle 1.
  { assert (eligible = false) as He.
    { unfold eligible, recovery_eligible. by rewrite Hi. }
    eexists. split; [destruct recovery_position; done|]. split; [done|].
    rewrite He. split; [by destruct recovery_position|].
    intros; done. }
  destruct recovery_position as [p|]; cycle 1.
  { eexists. split; [done|]. split; [done|]. split; [done|]. intros; done. }
  rewrite (Helig eq_refl). destruct eligible eqn:He; cycle 1.
  { eexists. split; [done|]. split; [done|]. split; [done|]. intros; done. }
  match goal with |- context [recover_position ?g p] => set (gs1 := g) end.
  destruct (recover_position gs1 p) as [b gs2|e gs2] eqn:Hrec.
  - apply recover_position_failed_boxes in Hrec as [Hf Hv].
    exists gs2. split; [done|]. split; [done|]. split; [done|].
    intros ? card [= <-] _ Hcard. by apply Hv.
  - exfalso. unfold recover_position in Hrec.
    destruct (failed_boxes gs1 !! p) as [card|] eqn:Hp; [|done].
    destruct (py_setitem (visible_cards gs1) p (Some card)) eqn:Hset2; [done|].
    apply eq_None_not_Some in Hset2. apply Hset2, py_setitem_is_Some.
    subst gs1. cbn. rewrite (py_setitem_length _ _ _ _ Hset).
    apply py_index_is_Some, (Hvalid p); [done|]. cbn in Hp. by rewrite Hp.
Qed.

End Recovery.

Section RecoveryExamples.
Import Simulator.

(** The theorem at an inclusive move that draws the seven of hearts on the
    seven of spades while slot 1 has failed with the five of diamonds. *)
Lemma C5_recovery_inside_execute_move_witness :
  let seven := new_Card 7 "♠" false in
  let drawn := new_Card 7 "♥" false in
  let five := new_Card 5 "♦" false in
  let gs := {| visible_cards := Some seven :: None
                                :: replicate 7 (Some (new_Card 3 "♣" false));
               remaining_deck := [drawn; new_Card 2 "♠" false];
               failed_boxes := {[ 1 := five ]};
               inclusive_moves_remaining := 1; inclusive_threshold := 5;
               moves_used := 1; inclusive_moves_used := 0; jokers_drawn := 0 |} in
  ∃ gs', execute_move gs 0 higher_equal (Some 1) = Returns true gs'
    ∧ failed_boxes gs' = delete 1 (failed_boxes gs)
    ∧ py_index (visible_cards gs') 1 = Some (Some five).
Proof.
  intros seven drawn five gs.
  destruct (C5_recovery_inside_execute_move gs 0 higher_equal (Some 1)
              drawn seven [new_Card 2 "♠" false])
    as (gs' & Hret & _ & Hfailed & Hslot).
  - reflexivity.
  - reflexivity.
  - reflexivity.
  - intros p [= <-] _. eexists. reflexivity.
  - exists gs'. split; [exact Hret|]. split; [exact Hfailed|].
    apply (Hslot 1 five); reflexivity.
Defined.

(** C5 as stated fails: with a joker as the target, the nine of hearts drawn
    on it with ['higher_equal'] is neither a joker nor of the target's value,
    and [execute_move] still restores the failed slot 1 by itself. *)
Lemma C5_counterexample :
  let joker := new_Card 0 "" true in
  let nine := new_Card 9 "♥" false in
  let five := new_Card 5 "♦" false in
  let gs := {| visible_cards := Some joker :: None
                                :: replicate 7 (Some (new_Card 3 "♣" false));
               remaining_deck := [nine; new_Card 2 "♠" false];
               failed_boxes := {[ 1 := five ]};
               inclusive_moves_remaining := 1; inclusive_threshold := 5;
               moves_used := 1; inclusive_moves_used := 0; jokers_drawn := 0 |} in
  let r := execute_move gs 0 higher_equal (Some 1) in
  is_joker nine = false
  ∧ (value nine =? value joker) = false
  ∧ returned r = Some true
  ∧ failed_boxes gs !! 1 = Some five
  ∧ failed_boxes (state_of r) !! 1 = None
  ∧ visible_cards (state_of r) !! 1%nat = Some (Some five).
Proof. repeat split. Qed.

End RecoveryExamples.

(** ** The inclusive budget *)

Section Budget.
Import Simulator.

Lemma recover_position_budget (gs : GameState) (p : Z) :
  inclusive_moves_remaining (state_of (recover_position gs p))
  = inclusive_moves_remaining gs.
Proof.
  unfold recover_position. destruct (failed_boxes gs !! p); [|done].
  by destruct (py_setitem _ _ _).
Qed.

(** [execute_move] takes one from the budget exactly when it draws a card
    for an inclusive move, whatever the budget is. *)
Lemma execute_move_budget (gs : GameState) (position : Z) (mt : move_type)
    (recovery_position : option Z) :
  let b := inclusive_moves_remaining gs in
  let b' := inclusive_moves_remaining
              (state_of (execute_move gs position mt recovery_position)) in
  b' = b ∨ (is_inclusive mt = true ∧ b' = b - 1).
Proof.
  cbn zeta. unfold execute_move. destruct (remaining_deck gs); [by left|].
  destruct (position >=? _); [by left|].
  destruct (py_index _ _) as [[target|]|]; [|by left..].
  destruct (check_move_success _ _ _).
  - destruct (is_inclusive mt) eqn:Hi.
    + right. split; [done|]. destruct recovery_position as [p|]; [|done].
      destruct (_ || _); [|done].
      match goal with |- context [recover_position ?g p] =>
        pose proof (recover_position_budget g p) as Hr;
        destruct (recover_position g p) end; cbn in Hr |- *; by rewrite Hr.
    + left. by destruct recovery_position.
  - destruct (is_inclusive mt) eqn:Hi; [right|left]; done.
Qed.

(** It asks for no budget: on a slot that holds a card, with a card to
    draw, an inclusive move takes one from the budget whatever it is. *)
Lemma execute_move_takes_from_budget (gs : GameState) (position : Z)
    (mt : move_type) (recovery_position : option Z)
    (drawn_card target_card : Card) (deck' : list Card) :
  remaining_deck gs = drawn_card :: deck' →
  position < Z.of_nat (length (visible_cards gs)) →
  py_index (visible_cards gs) position = Some (Some target_card) →
  inclusive_moves_remaining
    (state_of (execute_move gs position mt recovery_position))
  = if is_inclusive mt then inclusive_moves_remaining gs - 1
    else inclusive_moves_remaining gs.
Proof.
  intros Hdeck Hlt Htarget. unfold execute_move. rewrite Hdeck.
  destruct (position >=? _) eqn:Hge; [lia|]. rewrite Htarget.
  destruct (check_move_success _ _ _); [|done].
  destruct (is_inclusive mt); [|by destruct recovery_position].
  destruct recovery_position as [p|]; [|done]. destruct (_ || _); [|done].
  match goal with |- context [recover_position ?g p] =>
    pose proof (recover_position_budget g p) as Hr;
    destruct (recover_position g p) end; cbn in Hr |- *; by rewrite Hr.
Qed.

Lemma plain_step_inclusive (pos : Z) (probs : Probs) (acc : Q * option Move)
    (mt : move_type) (P : Prop) :
  is_inclusive mt = false →
  (∀ m, acc.2 = Some m → is_inclusive m.1.2 = true → P) →
  ∀ m, (plain_step pos probs acc mt).2 = Some m → is_inclusive m.1.2 = true → P.
Proof.
  intros Hmt Hacc m. unfold plain_step. destruct acc as [bp bm].
  destruct (Qgtb _ _); [|by apply Hacc]. cbn. intros [= <-]. cbn. congruence.
Qed.

Lemma position_step_inclusive (gs : GameState) (acc : Q * option Move)
    (pc : Z * option Card) :
  (∀ m, acc.2 = Some m → is_inclusive m.1.2 = true
        → 0 < inclusive_moves_remaining gs) →
  ∀ m, (position_step gs acc pc).2 = Some m → is_inclusive m.1.2 = true
       → 0 < inclusive_moves_remaining gs.
Proof.
  intros Hacc. unfold position_step. destruct pc.2 as [card|]; [|done].
  destruct (calculate_move_probabilities _ _) as [probs|]; [|done].
  assert (Hplain : ∀ m, (fold_left (plain_step pc.1 probs) [higher; lower] acc).2
                        = Some m →
                        is_inclusive m.1.2 = true → 0 < inclusive_moves_remaining gs).
  { cbn [fold_left]. by do 2 (apply plain_step_inclusive; [done|]). }
  destruct (inclusive_moves_remaining gs >? 0) eqn:Hb; [|done].
  intros m _ _. lia.
Qed.

(** [find_best_move] proposes an inclusive move only while the budget is
    positive. *)
Lemma find_best_move_inclusive (gs : GameState) (m : Move) :
  find_best_move gs = Some m → is_inclusive m.1.2 = true →
  0 < inclusive_moves_remaining gs.
Proof.
  unfold find_best_move.
  assert (H : ∀ l acc,
    (∀ m, acc.2 = Some m → is_inclusive m.1.2 = true
          → 0 < inclusive_moves_remaining gs) →
    ∀ m, (fold_left (position_step gs) l acc).2 = Some m →
         is_inclusive m.1.2 = true → 0 < inclusive_moves_remaining gs).
  { induction l as [|pc l IH]; intros acc Hacc; [done|].
    cbn [fold_left]. apply IH. by apply position_step_inclusive. }
  apply H. done.
Qed.

(** A move of the simulated player keeps the budget at zero or above. *)
Lemma make_best_move_budget (gs : GameState) :
  0 ≤ inclusive_moves_remaining gs →
  0 ≤ inclusive_moves_remaining (state_of (make_best_move gs)).
Proof.
  intros Hb. unfold make_best_move.
  destruct ((filter _ _).*1) as [|position ?]; [done|].
  destruct (find_best_move gs) as [[[pos mt] rp]|] eqn:Hbest.
  - destruct (execute_move_budget gs pos mt rp) as [->|[Hi ->]]; [done|].
    pose proof (find_best_move_inclusive gs _ Hbest Hi). lia.
  - destruct (py_index _ _) as [[card|]|]; [|done..].
    match goal with |- context [execute_move gs position ?mt None] =>
      destruct (execute_move_budget gs position mt None) as [->|[Hi ->]];
      [done | by destruct (value card <=? 7)] end.
Qed.

Lemma sim_steps_budget (gs gs' : GameState) :
  0 ≤ inclusive_moves_remaining gs → rtc sim_step gs gs' →
  0 ≤ inclusive_moves_remaining gs'.
Proof.
  intros Hb Hsteps. induction Hsteps as [|gs gs1 gs2 Hstep _ IH]; [done|].
  apply IH. rewrite Hstep. by apply make_best_move_budget.
Qed.

End Budget.

Section BudgetInTheWindow.
Import GamePlayer GamePlayer.NineBoxGame GamePlayer.NineBoxGUI.

(** With no inclusive choice left, an inclusive play is refused by
    [use_inclusive_choice] and [process_play] returns with nothing changed. *)
Lemma process_play_no_inclusive_choice (gui : NineBoxGUI.t) (position : Z)
    (player_choice : move_type) :
  inclusive_choices_remaining (game gui) ≤ 0 →
  is_inclusive player_choice = true →
  NineBoxGUI.process_play gui position player_choice
  = Returns NoInclusiveChoices gui.
Proof.
  intros Hb Hi. unfold NineBoxGUI.process_play, use_inclusive_choice. rewrite Hi.
  destruct (inclusive_choices_remaining (game gui) >? 0) eqn:H; [lia|done].
Qed.

Lemma update_counts_game (gui : NineBoxGUI.t) (card : option Card) :
  game (update_counts gui card) = game gui.
Proof. destruct card as [card|]; [|done]. cbn. by destruct (is_joker card). Qed.

Lemma process_play_budget_inv (gui : NineBoxGUI.t) (position : Z)
    (player_choice : move_type) :
  budget_inv gui →
  budget_inv (state_of (NineBoxGUI.process_play gui position player_choice)).
Proof.
  intros [Hb Hh]. unfold NineBoxGUI.process_play.
  set (g0 := (if is_inclusive player_choice then use_inclusive_choice (game gui)
              else (true, game gui))).
  assert (Hg0 : 0 ≤ inclusive_choices_remaining g0.2
                ∧ move_history g0.2 = move_history (game gui)).
  { subst g0. destruct (is_inclusive player_choice); [|done].
    unfold use_inclusive_choice.
    destruct (inclusive_choices_remaining (game gui) >? 0) eqn:H; cbn; [|done].
    split; [lia|done]. }
  destruct g0 as [ok g0]. cbn in Hg0. destruct Hg0 as [Hb0 Hh0].
  destruct ok; cbn [negb]; [|done].
  assert (Hpushed : ∀ m, GameMove.inclusive_moves_remaining m
                         = inclusive_choices_remaining (game gui) →
            Forall (λ m, 0 ≤ GameMove.inclusive_moves_remaining m)
              (m :: move_history g0)).
  { intros m Hm. constructor; [by rewrite Hm | by rewrite Hh0]. }
  destruct (py_index _ _) as [target|]; [|split; cbn; [done | by rewrite Hh0]].
  destruct (draw_card g0) as [drawn|]; [|split; cbn; [done | by rewrite Hh0]].
  destruct (is_joker drawn); [split; cbn; [done | by apply Hpushed]|].
  destruct target as [target|]; [|split; cbn; [done | by apply Hpushed]].
  destruct (is_joker target); [split; cbn; [done | by apply Hpushed]|].
  destruct (check_play_success _ _ _); split; cbn; try done; by apply Hpushed.
Qed.

Lemma recover_failed_box_budget_inv (gui : NineBoxGUI.t) (position : Z) :
  budget_inv gui →
  budget_inv (state_of (recover_failed_box gui position)).
Proof.
  intros [Hb Hh]. unfold recover_failed_box.
  destruct (failed_boxes (game gui) !! position) as [card|]; [|done].
  destruct (py_setitem _ _ _) as [visible|].
  - unfold budget_inv, state_of, with_game, with_failed_boxes; cbn [game].
    rewrite !update_counts_game. cbn. split; [done | by constructor].
  - split; cbn; [done | by constructor].
Qed.

Lemma undo_move_budget_inv (gui : NineBoxGUI.t) :
  budget_inv gui → budget_inv (state_of (undo_move gui)).
Proof.
  intros Hinv. unfold undo_move, undo_last_move.
  destruct (move_history (game gui)) as [|last_move history] eqn:Hhist; [done|].
  destruct Hinv as [Hb Hh]. rewrite Hhist in Hh.
  apply Forall_cons in Hh as [Hlast Hrest].
  destruct (py_setitem _ _ _) as [visible|]; [|by split].
  split; cbn.
  - by destruct (GameMove.drawn_card last_move) as [drawn|];
      [destruct (is_joker drawn)|].
  - by destruct (GameMove.drawn_card last_move) as [drawn|];
      [destruct (is_joker drawn)|].
Qed.

Lemma gui_steps_budget_inv (gui gui' : NineBoxGUI.t) :
  budget_inv gui → rtc gui_step gui gui' → budget_inv gui'.
Proof.
  intros Hinv Hsteps. induction Hsteps as [|gui gui1 gui2 Hstep _ IH]; [done|].
  apply IH. destruct Hstep.
  - by apply process_play_budget_inv.
  - by apply recover_failed_box_budget_inv.
  - by apply undo_move_budget_inv.
Qed.

(** C4 (as amended). The budget is guarded by the callers of the engine,
    not by [execute_move], which takes one from the budget for every
    inclusive move it draws a card for, whatever the budget is.  In the
    window, an inclusive play with no inclusive choice left is refused and
    leaves everything as it was; the simulated player proposes an inclusive
    move only while the budget is positive.  So the budget is never
    negative: neither after any number of moves of the simulated player, nor
    after any plays, recoveries and undos in the window, when the game starts
    with a budget of zero or more. *)
Theorem C4_budget_is_guarded_by_the_callers :
  (∀ gs position mt recovery_position drawn_card target_card deck',
     Simulator.remaining_deck gs = drawn_card :: deck' →
     position < Z.of_nat (length (Simulator.visible_cards gs)) →
     py_index (Simulator.visible_cards gs) position = Some (Some target_card) →
     is_inclusive mt = true →
     Simulator.inclusive_moves_remaining
       (state_of (Simulator.execute_move gs position mt recovery_position))
     = Simulator.inclusive_moves_remaining gs - 1)
  ∧ (∀ gui position player_choice,
       inclusive_choices_remaining (game gui) = 0 →
       is_inclusive player_choice = true →
       NineBoxGUI.process_play gui position player_choice
       = Returns NoInclusiveChoices gui)
  ∧ (∀ gs position mt recovery_position,
       Simulator.find_best_move gs = Some (position, mt, recovery_position) →
       is_inclusive mt = true →
       0 < Simulator.inclusive_moves_remaining gs)
  ∧ (∀ gs gs',
       0 ≤ Simulator.inclusive_moves_remaining gs → rtc sim_step gs gs' →
       0 ≤ Simulator.inclusive_moves_remaining gs')
  ∧ (∀ gui gui',
       0 ≤ inclusive_choices_remaining (game gui) →
       move_history (game gui) = [] → rtc gui_step gui gui' →
       0 ≤ inclusive_choices_remaining (game gui')).
Proof.
  split; [|split; [|split; [|split]]].
  - intros gs position mt rp drawn target deck' Hdeck Hlt Htarget Hi.
    rewrite (execute_move_takes_from_budget gs position mt rp drawn target deck')
      by done.
    by rewrite Hi.
  - intros gui position player_choice Hb Hi.
    apply process_play_no_inclusive_choice; [lia|done].
  - intros gs position mt rp Hbest Hi.
    by apply (find_best_move_inclusive gs _ Hbest).
  - apply sim_steps_budget.
  - intros gui gui' Hb Hh Hsteps.
    apply (gui_steps_budget_inv gui gui'); [|done].
    split; [done|]. rewrite Hh. constructor.
Qed.

(** The theorem in the window, at a game dealt from the unshuffled deck
    with no inclusive choice: ['higher_equal'] on slot 0 is refused. *)
Lemma C4_budget_is_guarded_by_the_callers_witness :
  let gui := (NineBoxGUI.new_game no_shuffle 0 0 true tt).1 in
  inclusive_choices_remaining (game gui) = 0
  ∧ NineBoxGUI.process_play gui 0 higher_equal = Returns NoInclusiveChoices gui.
Proof.
  intros gui. split; [reflexivity|].
  apply (proj1 (proj2 C4_budget_is_guarded_by_the_callers)); reflexivity.
Defined.

(** C4 as stated fails on [execute_move]: on a game dealt from the
    unshuffled deck with no inclusive move allowed, ['higher_equal'] on the
    two of spades draws the ten of spades, succeeds, and leaves a budget
    of -1. *)
Lemma C4_counterexample :
  let gs := (Simulator.new_game no_shuffle 0 0 5 tt).1 in
  let r := Simulator.execute_move gs 1 higher_equal None in
  Simulator.inclusive_moves_remaining gs = 0
  ∧ returned r = Some true
  ∧ Simulator.inclusive_moves_remaining (state_of r) = -1
  ∧ Simulator.remaining_deck (state_of r) = tail (Simulator.remaining_deck gs)
  ∧ Simulator.visible_cards (state_of r) !! 1%nat
    = Some (Some (new_Card 10 "♠" false)).
Proof. repeat split. Qed.

End BudgetInTheWindow.

(** ** The choice of the simulated player *)

Section Choice.
Import Simulator.







End Choice.

(** ** Undo *)

Lemma py_setitem_restore {A : Type} (l l1 : list A) (i : Z) (x y : A) :
  py_index l i = Some x → py_setitem l i y = Some l1 →
  py_setitem l1 i x = Some l.
Proof.
  intros Hx Hset. pose proof (py_setitem_length _ _ _ _ Hset) as Hlen.
  unfold py_index in Hx. unfold py_setitem in *. rewrite Hlen.
  destruct (0 <=? i).
  - destruct (i <? _); simplify_eq.
    by rewrite list_insert_insert_eq, list_insert_id.
  - destruct (- _ <=? i); simplify_eq.
    by rewrite list_insert_insert_eq, list_insert_id.
Qed.

Section Undo.
Import GamePlayer GamePlayer.NineBoxGame GamePlayer.NineBoxGUI.

(** In [NineBoxGUI], a play that drew a card, whether it succeeded, failed
    or went through on a joker, is taken back by [undo_move]: the game is
    again what it was, the jokers being the cards [Card(0, '', True)] that
    [setup_with_jokers] makes.  The three card counts are not part of the
    game and come back as they were after the draw. *)
Lemma NineBoxGUI_play_then_undo (gui gui' : NineBoxGUI.t) (position : Z)
    (player_choice : move_type) (correct offered : bool) :
  (∀ card, draw_card (game gui) = Some card → is_joker card = true →
           card = new_Card 0 "" true) →
  NineBoxGUI.process_play gui position player_choice
  = Returns (Played correct offered) gui' →
  ∃ gui'', undo_move gui' = Returns true gui'' ∧ game gui'' = game gui.
Proof.
  intros Hjoker. unfold NineBoxGUI.process_play.
  set (used := is_inclusive player_choice).
  set (r := if used then use_inclusive_choice (game gui) else (true, game gui)).
  assert (Hr : r.2 = game gui ∨
               r.2 = with_inclusive_choices_remaining (game gui)
                       (inclusive_choices_remaining (game gui) - 1)).
  { subst r. destruct used; [|by left]. unfold use_inclusive_choice.
    destruct (_ >? 0); [by right | by left]. }
  destruct r as [ok g0]. cbn [snd] in Hr. destruct ok; cbn [negb]; [|done].
  destruct (py_index (visible_cards g0) position) as [target|] eqn:Htarget; [|done].
  destruct (draw_card g0) as [drawn|] eqn:Hdraw; [|done].
  assert (Hvis : visible_cards g0 = visible_cards (game gui))
    by (by destruct Hr as [->| ->]).
  assert (Hdeck : remaining_deck g0 = remaining_deck (game gui))
    by (by destruct Hr as [->| ->]).
  assert (Hdrawn : remaining_deck (game gui) = drawn :: tail (remaining_deck g0)).
  { unfold draw_card in Hdraw. rewrite <- Hdeck.
    destruct (remaining_deck g0); cbn in *; by simplify_eq. }
  assert (Hcanon : is_joker drawn = true → drawn = new_Card 0 "" true).
  { apply Hjoker. unfold draw_card in *. by rewrite <- Hdeck. }
  assert (Hundo : ∀ slot failed c o gui1,
    let move := {| GameMove.drawn_card := Some drawn;
                   GameMove.position := position;
                   GameMove.old_card := target;
                   GameMove.used_inclusive := used;
                   GameMove.failed_boxes := failed_boxes g0;
                   GameMove.inclusive_moves_remaining :=
                     inclusive_choices_remaining (game gui);
                   GameMove.count1 := count1 gui1;
                   GameMove.count2 := count2 gui1;
                   GameMove.count3 := count3 gui1 |} in
    let g1 := with_move_history g0 (move :: move_history g0) in
    Returns (Played c o)
      (with_game (with_game gui1 g1)
         (remove_top_card
            (with_visible_cards (with_failed_boxes g1 failed)
               (default (visible_cards g1)
                  (py_setitem (visible_cards g1) position slot)))))
    = Returns (Played correct offered) gui' →
    ∃ gui'', undo_move gui' = Returns true gui'' ∧ game gui'' = game gui).
  { intros slot failed c o gui1 move g1 [= _ _ <-].
    unfold undo_move, undo_last_move. cbn -[py_setitem].
    destruct (py_setitem (visible_cards g0) position slot) as [visible1|] eqn:Hset;
      cycle 1.
    { exfalso. apply eq_None_not_Some in Hset. apply Hset, py_setitem_is_Some.
      by apply py_index_is_Some. }
    cbn -[py_setitem].
    rewrite (py_setitem_restore _ _ _ _ _ Htarget Hset).
    eexists. split; [reflexivity|]. cbn.
    assert (Hback : (if is_joker drawn then new_Card 0 "" true else drawn)
                    :: tail (remaining_deck g0) = remaining_deck (game gui)).
    { rewrite Hdrawn. destruct (is_joker drawn); [|done]. by rewrite Hcanon. }
    unfold with_inclusive_choices_remaining, with_remaining_deck,
      with_failed_boxes, with_visible_cards, with_move_history, remove_top_card.
    destruct (is_joker drawn); cbn; rewrite Hback, Hvis;
      destruct Hr as [->| ->]; by destruct (game gui). }
  destruct (is_joker drawn) eqn:Hj.
  { intros H. by apply (Hundo (Some drawn) (failed_boxes g0) _ _ _ H). }
  destruct target as [target|]; [|done].
  destruct (is_joker target).
  { intros H. by apply (Hundo (Some drawn) (failed_boxes g0) _ _ _ H). }
  destruct (check_play_success _ _ _).
  - intros H. by apply (Hundo (Some drawn) (failed_boxes g0) _ _ _ H).
  - intros H. by apply (Hundo None _ _ _ _ H).
Qed.

(** So is a recovery: [undo_move] empties the slot again and puts the card
    back into [failed_boxes]. *)
Lemma NineBoxGUI_recover_then_undo (gui gui' : NineBoxGUI.t) (position : Z) :
  py_index (visible_cards (game gui)) position = Some None →
  recover_failed_box gui position = Returns tt gui' →
  ∃ gui'', undo_move gui' = Returns true gui'' ∧ game gui'' = game gui.
Proof.
  intros Hslot. unfold recover_failed_box.
  destruct (failed_boxes (game gui) !! position) as [card|] eqn:Hcard; [|done].
  cbn -[py_setitem update_counts].
  destruct (py_setitem (visible_cards (game gui)) position (Some card))
    as [visible1|] eqn:Hset; [|done].
  match goal with |- context [update_counts ?g ?c] =>
    pose proof (update_counts_game g c) as Hg;
    generalize dependent (update_counts g c) end.
  intros gui2 Hg [= <-]. unfold undo_move, undo_last_move.
  cbn -[py_setitem]. rewrite !Hg. cbn -[py_setitem].
  rewrite (py_setitem_restore _ _ _ _ _ Hslot Hset).
  eexists. split; [reflexivity|]. cbn. by destruct (game gui).
Qed.

End Undo.

Section UndoInTheCardSelectionWindow.
Import GamePlayer GamePlayer.NineBoxGame GamePlayer.NineBoxGUI.



End UndoInTheCardSelectionWindow.

(** ** A simulated game runs to its end *)

Lemma elem_of_enumerate_from {A : Type} (l : list A) (s i : Z) (x : A) :
  (i, x) ∈ enumerate_from s l ↔ s ≤ i ∧ l !! Z.to_nat (i - s) = Some x.
Proof.
  revert s. induction l as [|y l IH]; intros s; cbn [enumerate_from].
  - split; [by intros ?%elem_of_nil | by intros [_ ?]].
  - rewrite elem_of_cons, IH. split.
    + intros [[= -> ->]|[Hle Hx]].
      * split; [lia|]. by rewrite Z.sub_diag.
      * split; [lia|].
        replace (Z.to_nat (i - s)) with (S (Z.to_nat (i - (s + 1)))) by lia. done.
    + intros [Hle Hx]. destruct (decide (i = s)) as [->|Hne].
      * left. rewrite Z.sub_diag in Hx. change (Z.to_nat 0) with 0%nat in Hx.
        cbn in Hx. by simplify_eq.
      * right. split; [lia|].
        replace (Z.to_nat (i - s)) with (S (Z.to_nat (i - (s + 1)))) in Hx by lia.
        done.
Qed.

Lemma elem_of_enumerate {A : Type} (l : list A) (i : Z) (x : A) :
  (i, x) ∈ enumerate l ↔ 0 ≤ i ∧ l !! Z.to_nat i = Some x.
Proof.
  unfold enumerate. rewrite elem_of_enumerate_from.
  by replace (i - 0) with i by lia.
Qed.

Lemma py_index_nonneg {A : Type} (l : list A) (i : Z) :
  0 ≤ i → py_index l i = l !! Z.to_nat i.
Proof. intros H. unfold py_index. by apply Z.leb_le in H as ->. Qed.

Lemma py_setitem_nonneg {A : Type} (l : list A) (i : Z) (x y : A) :
  0 ≤ i → l !! Z.to_nat i = Some y →
  py_setitem l i x = Some (<[Z.to_nat i := x]> l).
Proof.
  intros H Hy. unfold py_setitem. apply Z.leb_le in H as ->.
  apply lookup_lt_Some in Hy.
  destruct (i <? Z.of_nat (length l)) eqn:Hlt; [done|lia].
Qed.

Lemma fold_left_invariant {A B : Type} (P : A → Prop) (f : A → B → A)
    (l : list B) (a : A) :
  P a → (∀ a x, x ∈ l → P a → P (f a x)) → P (fold_left f l a).
Proof.
  revert a. induction l as [|x l IH]; intros a Ha Hf; [done|].
  cbn [fold_left]. apply IH.
  - apply Hf; [left | done].
  - intros a' x' Hin. apply Hf. by right.
Qed.

Section Termination.
Import Simulator.

(** What [find_best_move] returns is a position of the grid that holds a
    card, with a failed position, or none, to recover. *)
Lemma find_best_move_valid (gs : GameState) (pos : Z) (mt : move_type)
    (rp : option Z) :
  find_best_move gs = Some (pos, mt, rp) →
  0 ≤ pos ∧ (∃ card, visible_cards gs !! Z.to_nat pos = Some (Some card)).
Proof.
  unfold find_best_move.
  set (P := λ acc : Q * option Move, ∀ pos mt rp, acc.2 = Some (pos, mt, rp) →
     0 ≤ pos ∧ (∃ card, visible_cards gs !! Z.to_nat pos = Some (Some card))).
  assert (HP : P (fold_left (position_step gs) (enumerate (visible_cards gs))
                    ((-1)%Q, None))); [|by apply HP].
  apply fold_left_invariant; [done|].
  intros acc [i slot] Hin Hacc. apply elem_of_enumerate in Hin as [Hi Hslot].
  unfold position_step. cbn [fst snd]. destruct slot as [card|]; [|done].
  destruct (calculate_move_probabilities _ _) as [probs|]; [|done].
  assert (Hplain : ∀ acc mt, P acc → P (plain_step i probs acc mt)).
  { intros [bp bm] mt' H. unfold plain_step. destruct (Qgtb _ _); [|done].
    intros ? ? ? [= <- <- <-]. eauto. }
  assert (Hincl : ∀ acc mt, P acc → P (inclusive_step gs i probs acc mt)).
  { intros [bp bm] mt' H. unfold inclusive_step.
    destruct (should_use_inclusive _ _ _ _); [|done].
    intros ? ? ? [= <- <- <-]. eauto. }
  cbn [fold_left]. destruct (_ >? 0); auto.
Qed.

Lemma omap_id_slot_change {A : Type} (l : list (option A)) (n : nat)
    (x y : option A) :
  l !! n = Some x →
  omap id (<[n := y]> l) ++ option_list x ≡ₚ omap id l ++ option_list y.
Proof.
  intros Hx. pose proof (lookup_lt_Some _ _ _ Hx) as Hlt.
  rewrite insert_take_drop by done.
  rewrite <- (take_drop_middle l n x Hx) at 3.
  rewrite !omap_app. cbn [omap].
  destruct x as [a|], y as [b|]; cbn; rewrite ?app_nil_r; solve_Permutation.
Qed.

Lemma failed_cards_delete (m : gmap Z Card) (p : Z) (card : Card) :
  m !! p = Some card →
  (map_to_list m).*2 ≡ₚ card :: (map_to_list (delete p m)).*2.
Proof. intros Hp. by rewrite <- (map_to_list_delete m p card Hp). Qed.

Lemma failed_cards_insert (m : gmap Z Card) (p : Z) (card : Card) :
  m !! p = None →
  (map_to_list (<[p := card]> m)).*2 ≡ₚ card :: (map_to_list m).*2.
Proof. intros Hp. by rewrite (map_to_list_insert m p card Hp). Qed.

(** [recover_position] moves the failed card back to its slot: no card is
    gained or lost. *)
Lemma recover_position_returns (gs : GameState) (p : Z) :
  sim_wf gs →
  ∃ b gs', recover_position gs p = Returns b gs'
    ∧ remaining_deck gs' = remaining_deck gs
    ∧ sim_wf gs'
    ∧ sim_held gs' ≡ₚ sim_held gs.
Proof.
  intros Hwf. unfold recover_position.
  destruct (failed_boxes gs !! p) as [card|] eqn:Hp; [|by eexists _, _].
  destruct (Hwf p) as [H0 Hnone]; [by rewrite Hp|].
  rewrite (py_setitem_nonneg _ _ _ _ H0 Hnone).
  eexists _, _. split; [done|]. cbn. split; [done|]. split.
  - intros k Hk. cbn in Hk |- *.
    destruct (decide (k = p)) as [->|Hne];
      [by rewrite lookup_delete_eq in Hk; destruct Hk|].
    rewrite lookup_delete_ne in Hk by done.
    destruct (Hwf k Hk) as [Hk0 Hk1]. split; [done|].
    rewrite list_lookup_insert_ne; [done | lia].
  - unfold sim_held, held_cards. cbn.
    pose proof (omap_id_slot_change _ _ _ (Some card) Hnone) as Hv. cbn in Hv.
    rewrite app_nil_r in Hv. rewrite Hv, (failed_cards_delete _ _ _ Hp).
    solve_Permutation.
Qed.

(** A move on a position of the grid that holds a card draws the top card,
    keeps the failed boxes in step with the empty slots, and gives up one
    card: the card played on when the move succeeds, the card drawn when it
    fails. *)
Lemma execute_move_draws (gs : GameState) (pos : Z) (mt : move_type)
    (rp : option Z) (target drawn : Card) (deck' : list Card) :
  sim_wf gs → 0 ≤ pos →
  visible_cards gs !! Z.to_nat pos = Some (Some target) →
  remaining_deck gs = drawn :: deck' →
  ∃ b gs', execute_move gs pos mt rp = Returns b gs'
    ∧ remaining_deck gs' = deck' ∧ sim_wf gs'
    ∧ sim_held gs ≡ₚ (if b then target else drawn) :: sim_held gs'.
Proof.
  intros Hwf H0 Htarget Hdeck. unfold execute_move. rewrite Hdeck.
  pose proof (lookup_lt_Some _ _ _ Htarget) as Hlt.
  destruct (pos >=? _) eqn:Hge; [lia|].
  rewrite (py_index_nonneg _ _ H0), Htarget.
  rewrite !(py_setitem_nonneg _ _ _ _ H0 Htarget). cbn [default].
  assert (Hpos : failed_boxes gs !! pos = None).
  { apply eq_None_not_Some. intros [_ Hnone]%Hwf. congruence. }
  destruct (check_move_success _ _ _).
  - match goal with |- context [Returns true ?g] => set (gs1 := g) end.
    assert (Hwf1 : sim_wf gs1).
    { intros k Hk. destruct (Hwf k Hk) as [Hk0 Hnone]. split; [done|]. cbn.
      rewrite list_lookup_insert_ne; [done|]. intros Heq.
      assert (k = pos) as -> by lia. destruct Hk as [? Hk]. congruence. }
    assert (Hheld1 : sim_held gs ≡ₚ target :: sim_held gs1).
    { unfold sim_held, held_cards. rewrite Hdeck. cbn.
      pose proof (omap_id_slot_change _ _ _ (Some drawn) Htarget) as Hp.
      cbn in Hp.
      transitivity ((omap id (visible_cards gs) ++ [drawn])
                    ++ (map_to_list (failed_boxes gs)).*2 ++ deck');
        [solve_Permutation|].
      rewrite <- Hp. solve_Permutation. }
    assert (Hdone : ∃ b gs', Returns true gs1 = Returns b gs'
              ∧ remaining_deck gs' = deck' ∧ sim_wf gs'
              ∧ sim_held gs ≡ₚ (if b then target else drawn) :: sim_held gs')
      by (by eexists _, _).
    destruct (is_inclusive mt); [|by destruct rp].
    destruct rp as [p|]; [|done]. destruct (_ || _); [|done].
    destruct (recover_position_returns gs1 p Hwf1)
      as (b & gs2 & -> & Hd & Hwf2 & Hheld2).
    eexists _, _. split; [done|]. split; [done|]. split; [done|].
    by rewrite Hheld2.
  - eexists _, _. split; [done|]. split; [done|]. split.
    + intros k Hk. cbn in Hk |- *. destruct (decide (k = pos)) as [->|Hne].
      * split; [done|]. apply list_lookup_insert_eq. lia.
      * rewrite lookup_insert_ne in Hk by done.
        destruct (Hwf k Hk) as [Hk0 Hnone]. split; [done|].
        rewrite list_lookup_insert_ne; [done|]. lia.
    + unfold sim_held, held_cards. rewrite Hdeck. cbn.
      pose proof (omap_id_slot_change _ _ _ None Htarget) as Hp. cbn in Hp.
      rewrite app_nil_r in Hp.
      rewrite (failed_cards_insert _ _ target Hpos), <- Hp. solve_Permutation.
Qed.

End Termination.

Section PlayGame.
Import Simulator.

Lemma valid_positions_nil (visible : list (option Card)) :
  (filter (λ pc : Z * option Card, pc.2 ≠ None) (enumerate visible)).*1 = [] →
  all_failed visible = true.
Proof.
  intros Hnil. apply fmap_nil_inv in Hnil. apply all_failed_spec.
  intros slot Hin. apply list_elem_of_lookup in Hin as [i Hi].
  destruct slot as [card|]; [|done]. exfalso.
  assert (Hmem : (Z.of_nat i, Some card) ∈
            filter (λ pc : Z * option Card, pc.2 ≠ None) (enumerate visible)).
  { apply list_elem_of_filter. split; [done|]. apply elem_of_enumerate.
    split; [lia|]. by rewrite Nat2Z.id. }
  rewrite Hnil in Hmem. by apply elem_of_nil in Hmem.
Qed.

Lemma valid_positions_head (visible : list (option Card)) (position : Z)
    (rest : list Z) :
  (filter (λ pc : Z * option Card, pc.2 ≠ None) (enumerate visible)).*1
  = position :: rest →
  0 ≤ position ∧ ∃ card, visible !! Z.to_nat position = Some (Some card).
Proof.
  intros Hvp.
  assert (Hin : position ∈
    (filter (λ pc : Z * option Card, pc.2 ≠ None) (enumerate visible)).*1)
    by (rewrite Hvp; left).
  apply list_elem_of_fmap in Hin as ([i slot] & -> & Hin).
  apply list_elem_of_filter in Hin as [Hslot Hin].
  apply elem_of_enumerate in Hin as [Hi Hlook]. cbn in *.
  split; [done|]. destruct slot as [card|]; [by exists card | done].
Qed.

(** While the game is not over, the move of the simulated player draws one
    card and gives up one card. *)
Lemma make_best_move_draws (gs : GameState) :
  sim_wf gs → is_game_over gs = false →
  ∃ b gs' consumed, make_best_move gs = Returns b gs'
    ∧ S (length (remaining_deck gs')) = length (remaining_deck gs)
    ∧ sim_wf gs'
    ∧ sim_held gs ≡ₚ consumed :: sim_held gs'.
Proof.
  intros Hwf Hover. unfold is_game_over in Hover.
  apply orb_false_iff in Hover as [Hall Hdeck].
  apply bool_decide_eq_false in Hdeck.
  destruct (remaining_deck gs) as [|drawn deck'] eqn:Hd; [done|].
  unfold make_best_move.
  destruct ((filter _ _).*1) as [|position rest] eqn:Hvp.
  { apply valid_positions_nil in Hvp. congruence. }
  apply valid_positions_head in Hvp as [Hp0 [card Hcard]].
  destruct (find_best_move gs) as [[[pos mt] rp]|] eqn:Hbest.
  - apply find_best_move_valid in Hbest as [H0 [target Htarget]].
    destruct (execute_move_draws gs pos mt rp target drawn deck' Hwf H0 Htarget Hd)
      as (b & gs' & -> & Hdeck' & Hwf' & Hheld).
    exists b, gs'. eexists. by rewrite Hdeck'.
  - rewrite (py_index_nonneg _ _ Hp0), Hcard.
    match goal with |- context [execute_move gs position ?mt None] =>
      destruct (execute_move_draws gs position mt None card drawn deck'
                  Hwf Hp0 Hcard Hd) as (b & gs' & -> & Hdeck' & Hwf' & Hheld) end.
    exists b, gs'. eexists. by rewrite Hdeck'.
Qed.

(** With as much fuel as there are cards in the deck the loop of
    [play_game] ends with a result. *)
Lemma play_loop_returns (fuel : nat) (gs : GameState) :
  sim_wf gs → (length (remaining_deck gs) ≤ fuel)%nat →
  ∃ out gs', play_loop fuel gs = Returns out gs'.
Proof.
  revert gs. induction fuel as [|fuel IH]; intros gs Hwf Hfuel.
  - cbn. destruct (is_game_over gs) eqn:Hover; [by eexists _, _|].
    unfold is_game_over in Hover. apply orb_false_iff in Hover as [_ Hdeck].
    apply bool_decide_eq_false in Hdeck.
    destruct (remaining_deck gs); [done | cbn in Hfuel; lia].
  - cbn [play_loop]. destruct (is_game_over gs) eqn:Hover; [by eexists _, _|].
    destruct (make_best_move_draws gs Hwf Hover)
      as (b & gs1 & _ & -> & Hlen & Hwf1 & _).
    destruct (negb b && all_failed (visible_cards gs1)); [by eexists _, _|].
    apply IH; [done | lia].
Qed.

Lemma new_game_wf (R : Shuffler) (num_jokers inclusive_moves : Z)
    (threshold : Q) (r : rng R) :
  sim_wf (new_game R num_jokers inclusive_moves threshold r).1.
Proof.
  unfold new_game. destruct (shuffle R r _) as [deck r']. cbn.
  intros k [card Hk]. cbn in Hk. by rewrite lookup_empty in Hk.
Qed.

(** [play_game] returns: the game it deals is played to its end, whatever
    the shuffle. *)
Lemma play_game_returns (R : Shuffler) (inclusive_limit : Z) (threshold : Q)
    (jokers : Z) (r : rng R) :
  ∃ out gs' r', play_game R inclusive_limit threshold jokers r
                = (Returns out gs', r').
Proof.
  unfold play_game.
  pose proof (new_game_wf R jokers inclusive_limit threshold r) as Hwf.
  destruct (new_game R jokers inclusive_limit threshold r) as [gs r'].
  destruct (play_loop_returns (length (remaining_deck gs)) gs Hwf) as (out & gs' & ->);
    [lia|]. by eexists _, _, _.
Qed.

End PlayGame.

(** ** The grid search *)

Section Grid.
Import Simulator Optimizer.
Context (R : Shuffler).

Lemma params_eqb_norm (k k' : Params) :
  params_eqb k k' = true ↔ key_norm k = key_norm k'.
Proof.
  destruct k as [[j m] t], k' as [[j' m'] t']. unfold params_eqb, key_norm. cbn.
  rewrite !andb_true_iff, !Z.eqb_eq, Qeq_bool_iff, <- Qred_eq_iff.
  split; [by intros [[-> ->] ->] | by intros [= -> -> ->]].
Qed.

Lemma params_eqb_refl (k : Params) : params_eqb k k = true.
Proof. by apply params_eqb_norm. Qed.

Lemma params_eqb_false (k k' : Params) :
  key_norm k ≠ key_norm k' → params_eqb k k' = false.
Proof.
  intros H. apply not_true_is_false. by intros ?%params_eqb_norm.
Qed.

Lemma dict_set_fresh {V : Type} (d : list (Params * V)) (k : Params) (v : V) :
  (∀ kv, kv ∈ d → params_eqb kv.1 k = false) → dict_set d k v = d ++ [(k, v)].
Proof.
  induction d as [|kv d IH]; intros H; [done|]. cbn.
  rewrite (H kv) by left. f_equal. apply IH. intros kv' Hin. apply H. by right.
Qed.

Lemma dict_get_None {V : Type} (d : list (Params * V)) (k : Params) :
  (∀ kv, kv ∈ d → params_eqb kv.1 k = false) → dict_get d k = None.
Proof.
  induction d as [|kv d IH]; intros H; [done|]. cbn.
  rewrite (H kv) by left. apply IH. intros kv' Hin. apply H. by right.
Qed.

Lemma dict_get_NoDup {V : Type} (d : list (Params * V)) (k : Params) (v : V) :
  NoDup (key_norm <$> d.*1) → (k, v) ∈ d → dict_get d k = Some v.
Proof.
  induction d as [|kv d IH]; intros Hnd Hin; [by apply elem_of_nil in Hin|].
  cbn in Hnd. apply NoDup_cons in Hnd as [Hnotin Hnd].
  apply elem_of_cons in Hin as [<-|Hin]; cbn.
  - by rewrite params_eqb_refl.
  - rewrite params_eqb_false; [by apply IH|].
    intros Heq. apply Hnotin. rewrite Heq.
    apply list_elem_of_fmap. exists k. split; [done|].
    apply list_elem_of_fmap. by exists (k, v).
Qed.

(** [simulate] plays [n] games and counts the wins among them. *)
Lemma simulate_spec (n : nat) (moves : Z) (threshold : Q) (jokers : Z)
    (w tj : Z) (r : rng R) :
  let games := games_played R n moves threshold jokers r in
  length games = n
  ∧ ∃ r', simulate R n moves threshold jokers w tj r
          = Returns (w + wins_of games, tj + jokers_found games) r'.
Proof.
  revert w tj r. induction n as [|n IH]; intros w tj r; cbn zeta.
  - split; [done|]. exists r. cbn. unfold wins_of. rewrite count_if_nil.
    by rewrite !Z.add_0_r.
  - cbn [games_played simulate].
    destruct (play_game_returns R moves threshold jokers r)
      as ([[won remaining] stats] & gs' & r1 & ->).
    destruct (IH (if won then w + 1 else w) (tj + stat_jokers_drawn stats) r1)
      as [Hlen [r' ->]].
    split; [cbn; by rewrite Hlen|]. exists r'. f_equal. unfold wins_of.
    rewrite count_if_cons. cbn [fst snd jokers_found foldr].
    f_equal; [destruct won; lia | unfold jokers_found; lia].
Qed.

Lemma wins_of_bounds (games : list (bool * Z * Stats)) :
  0 ≤ wins_of games ≤ Z.of_nat (length games).
Proof.
  unfold wins_of. split; [apply count_if_nonneg | apply count_if_le_length].
Qed.

End Grid.

Section GridSearch.
Import Simulator Optimizer.
Context (R : Shuffler).

Lemma percent_nonneg (count total : Z) :
  0 ≤ count → 0 < total → (0 <= percent count total)%Q.
Proof.
  intros Hc Ht. unfold percent. apply Qmult_le_0_compat; [|done].
  apply Qle_shift_div_l.
  - change 0%Q with (inject_Z 0). by rewrite <- Zlt_Qlt.
  - rewrite Qmult_0_l. change 0%Q with (inject_Z 0). by rewrite <- Zle_Qle.
Qed.

(** The running best is the greatest of the starting value and the win
    rates of the entries. *)
Lemma best_after_spec (added : list (Params * SimulationResults)) (b : Q) :
  (b <= best_after b added)%Q
  ∧ (∀ kr, kr ∈ added → (win_rate_of kr.2 <= best_after b added)%Q)
  ∧ (best_after b added = b
     ∨ ∃ kr, kr ∈ added ∧ best_after b added = win_rate_of kr.2).
Proof.
  revert b. induction added as [|kr added IH]; intros b.
  - split; [apply Qle_refl|]. split; [by intros ? ?%elem_of_nil | by left].
  - unfold best_after. cbn [fold_left].
    set (b1 := if Qgtb (win_rate_of kr.2) b then win_rate_of kr.2 else b).
    fold (best_after b1 added).
    assert (Hb1 : (b <= b1)%Q ∧ (win_rate_of kr.2 <= b1)%Q
                  ∧ (b1 = b ∨ b1 = win_rate_of kr.2)).
    { subst b1. destruct (Qgtb _ _) eqn:Hgt.
      - apply Qgtb_spec in Hgt. split; [by apply Qlt_le_weak|].
        split; [apply Qle_refl | by right].
      - apply Qgtb_false in Hgt. split; [apply Qle_refl|]. split; [done | by left]. }
    destruct Hb1 as (Hle & Hkr & Hcase).
    destruct (IH b1) as (IH1 & IH2 & IH3).
    split; [by eapply Qle_trans|]. split.
    + intros kr' [->|Hin]%elem_of_cons; [by eapply Qle_trans | by apply IH2].
    + destruct IH3 as [->|(kr' & Hin & ->)].
      * destruct Hcase as [->| ->]; [by left|]. right. exists kr. split; [left|done].
      * right. exists kr'. split; [by right | done].
Qed.

(** Over cells that are pairwise distinct and none of which is recorded
    yet, the loop returns, appends one entry for each cell that is not
    skipped, in the order of the cells, and tracks the running best. *)
Lemma run_cells_spec (sim_count : Z) (cells : list Params)
    (o : OptimizationResults) (r : rng R) :
  0 < sim_count →
  NoDup (key_norm <$> cells) →
  (∀ kr k, kr ∈ results o → k ∈ cells → key_norm kr.1 ≠ key_norm k) →
  ∃ o' r' added,
    run_cells R sim_count cells o r = Returns tt (o', r')
    ∧ results o' = results o ++ added
    ∧ added.*1 = filter (λ k : Params, k.1.2 ≤ 43 + k.1.1) cells
    ∧ Forall (cell_recorded R sim_count) added
    ∧ best_win_rate o' = best_after (best_win_rate o) added.
Proof.
  intros Hsim. revert o r.
  induction cells as [|[[jokers moves] threshold] cells IH]; intros o r Hnd Hfresh.
  - exists o, r, []. split; [done|]. split; [by rewrite app_nil_r | done].
  - cbn in Hnd. apply NoDup_cons in Hnd as [Hnotin Hnd].
    cbn [run_cells]. rewrite filter_cons. cbn [fst snd].
    destruct (moves >? 43 + jokers) eqn:Hskip.
    + destruct (IH o r Hnd) as (o' & r' & added & Hrun & Hres & Hkeys & Hrec & Hbest).
      { intros kr k Hkr Hk. apply Hfresh; [done | by right]. }
      exists o', r', added. split; [done|]. split; [done|].
      split; [|done]. case_decide; [lia | done].
    + destruct (simulate_spec R (Z.to_nat sim_count) moves threshold jokers 0 0 r)
        as [Hlen [r1 Hsimul]].
      rewrite Hsimul, !Z.add_0_l.
      set (games := games_played R (Z.to_nat sim_count) moves threshold jokers r) in *.
      set (res := cell_result sim_count (wins_of games) (jokers_found games)).
      unfold add_result.
      replace (total_games res =? 0) with false by (symmetry; apply Z.eqb_neq; cbn; lia).
      rewrite (dict_set_fresh (results o) (jokers, moves, threshold) res); cycle 1.
      { intros kv Hkv. apply params_eqb_false, Hfresh; [done | left]. }
      match goal with |- context [if ?c then Returns tt ?oa else Returns tt ?ob] =>
        set (o1 := if c then oa else ob);
        replace (if c then Returns tt oa else Returns tt ob)
          with (Returns (S:=OptimizationResults) tt o1) by (subst o1; by destruct c)
      end.
      assert (Ho1 : results o1 = results o ++ [((jokers, moves, threshold), res)]
                    ∧ best_win_rate o1
                      = best_after (best_win_rate o) [((jokers, moves, threshold), res)]).
      { subst o1. unfold best_after. cbn [fold_left snd].
        by destruct (Qgtb (win_rate_of res) (best_win_rate o)). }
      destruct Ho1 as [Hres1 Hbest1].
      destruct (IH o1 r1 Hnd) as (o' & r' & added & Hrun & Hres & Hkeys & Hrec & Hbest).
      { intros kr k Hkr Hk. rewrite Hres1 in Hkr.
        apply elem_of_app in Hkr as [Hkr|Hkr%list_elem_of_singleton].
        - apply Hfresh; [done | by right].
        - subst kr. cbn [fst]. intros Heq. apply Hnotin. rewrite Heq.
          apply list_elem_of_fmap. by exists k. }
      exists o', r', (((jokers, moves, threshold), res) :: added).
      split; [done|]. split; [by rewrite Hres, Hres1, <- app_assoc|].
      split; [case_decide; [by rewrite <- Hkeys | lia]|].
      split.
      * constructor; [|done]. split; [cbn; lia|]. exists r. split; done.
      * rewrite Hbest, Hbest1. done.
Qed.

End GridSearch.

Section GridSearchTheorem.
Import Simulator Optimizer.
Context (R : Shuffler).

Lemma elem_of_product (joker_range moves_range : list Z)
    (threshold_range : list Q) (jokers moves : Z) (threshold : Q) :
  (jokers, moves, threshold) ∈ product joker_range moves_range threshold_range
  ↔ jokers ∈ joker_range ∧ moves ∈ moves_range ∧ threshold ∈ threshold_range.
Proof.
  unfold product. rewrite list_elem_of_bind. split.
  - intros (j & Hin & Hj). apply list_elem_of_bind in Hin as (m & Hin & Hm).
    apply list_elem_of_bind in Hin as (t & Hin & Ht).
    apply list_elem_of_singleton in Hin as [= -> -> ->]. done.
  - intros (Hj & Hm & Ht). exists jokers. split; [|done].
    apply list_elem_of_bind. exists moves. split; [|done].
    apply list_elem_of_bind. exists threshold. split; [|done].
    by apply list_elem_of_singleton.
Qed.

Lemma NoDup_product (joker_range moves_range : list Z) (threshold_range : list Q) :
  NoDup joker_range → NoDup moves_range → NoDup threshold_range →
  NoDup (product joker_range moves_range threshold_range).
Proof.
  intros Hj Hm Ht. unfold product. apply NoDup_bind; [| |done].
  - intros j1 j2 k _ _ H1 H2.
    apply list_elem_of_bind in H1 as (m1 & H1 & _).
    apply list_elem_of_bind in H1 as (t1 & H1 & _).
    apply list_elem_of_bind in H2 as (m2 & H2 & _).
    apply list_elem_of_bind in H2 as (t2 & H2 & _).
    apply list_elem_of_singleton in H1, H2. congruence.
  - intros j _. apply NoDup_bind; [| |done].
    + intros m1 m2 k _ _ H1 H2.
      apply list_elem_of_bind in H1 as (t1 & H1 & _).
      apply list_elem_of_bind in H2 as (t2 & H2 & _).
      apply list_elem_of_singleton in H1, H2. congruence.
    + intros m _. apply NoDup_bind; [| |done].
      * intros t1 t2 k _ _ H1 H2.
        apply list_elem_of_singleton in H1, H2. congruence.
      * intros t _. apply NoDup_singleton.
Qed.

Lemma NoDup_fmap_eq {A B : Type} (f : A → B) (l : list A) (x y : A) :
  NoDup (f <$> l) → x ∈ l → y ∈ l → f x = f y → x = y.
Proof.
  induction l as [|z l IH]; intros Hnd Hx Hy Heq; [by apply elem_of_nil in Hx|].
  cbn in Hnd. apply NoDup_cons in Hnd as [Hnotin Hnd].
  apply elem_of_cons in Hx as [->|Hx], Hy as [->|Hy]; [done| | |by apply IH].
  - exfalso. apply Hnotin. rewrite Heq. apply list_elem_of_fmap. by exists y.
  - exfalso. apply Hnotin. rewrite <- Heq. apply list_elem_of_fmap. by exists x.
Qed.

(** Ranges without repetition give cells that are pairwise distinct. *)
Lemma NoDup_keys_of_product (joker_range moves_range : list Z)
    (threshold_range : list Q) :
  NoDup joker_range → NoDup moves_range → NoDup (Qred <$> threshold_range) →
  NoDup (key_norm <$> product joker_range moves_range threshold_range).
Proof.
  intros Hj Hm Ht. apply NoDup_fmap_2_strong.
  - intros [[j1 m1] t1] [[j2 m2] t2] H1 H2. unfold key_norm. cbn.
    intros [= -> -> Hred].
    apply elem_of_product in H1 as (_ & _ & H1), H2 as (_ & _ & H2).
    by rewrite (NoDup_fmap_eq Qred threshold_range t1 t2 Ht H1 H2 Hred).
  - apply NoDup_product; [done | done | by eapply NoDup_fmap_1].
Qed.

Lemma validate_inputs_sim_count (sim_count joker_min joker_max moves_min moves_max : Z)
    (threshold_min threshold_max : Q) :
  validate_inputs sim_count joker_min joker_max moves_min moves_max
    threshold_min threshold_max = true →
  0 < sim_count.
Proof.
  unfold validate_inputs. destruct (sim_count <=? 0) eqn:H; [done|]. lia.
Qed.

(** C10. A grid search on valid input, over thresholds that are pairwise
    distinct, returns.  A cell with [moves > 43 + jokers] has no entry in the
    results.  Every other cell has the entry recorded under its triple: the
    record of [sim_count] games played for that triple, with
    [total_games = sim_count] and [wins + losses = sim_count].  Nothing else
    is recorded.  The best win rate tracked is the greatest win rate of the
    recorded entries: no entry has a greater one, and when there is an entry,
    one has it. *)
Theorem C10_grid_search
    (sim_count joker_min joker_max moves_min moves_max : Z)
    (threshold_min threshold_max : Q) (threshold_range : list Q) (r : rng R) :
  validate_inputs sim_count joker_min joker_max moves_min moves_max
    threshold_min threshold_max = true →
  NoDup (Qred <$> threshold_range) →
  let cells := product (py_range joker_min (joker_max + 1))
                       (py_range moves_min (moves_max + 1)) threshold_range in
  ∃ o r',
    run_optimization R sim_count joker_min joker_max moves_min moves_max
      threshold_min threshold_max threshold_range r
    = Some (Returns tt (o, r'))
    ∧ (∀ jokers moves threshold,
         (jokers, moves, threshold) ∈ cells → moves > 43 + jokers →
         dict_get (results o) (jokers, moves, threshold) = None)
    ∧ (∀ jokers moves threshold,
         (jokers, moves, threshold) ∈ cells → moves ≤ 43 + jokers →
         ∃ res, dict_get (results o) (jokers, moves, threshold) = Some res
                ∧ cell_recorded R sim_count ((jokers, moves, threshold), res)
                ∧ total_games res = sim_count
                ∧ wins res + losses res = sim_count
                ∧ 0 ≤ wins res ≤ sim_count)
    ∧ (∀ kr, kr ∈ results o → kr.1 ∈ cells ∧ cell_recorded R sim_count kr)
    ∧ (∀ kr, kr ∈ results o → (win_rate_of kr.2 <= best_win_rate o)%Q)
    ∧ (results o ≠ [] →
       ∃ kr, kr ∈ results o ∧ (win_rate_of kr.2 == best_win_rate o)%Q).
Proof.
  intros Hvalid Hthr cells. unfold run_optimization. rewrite Hvalid.
  pose proof (validate_inputs_sim_count _ _ _ _ _ _ _ Hvalid) as Hsim.
  assert (Hnd : NoDup (key_norm <$> cells)).
  { apply NoDup_keys_of_product; [apply NoDup_seqZ | apply NoDup_seqZ | done]. }
  destruct (run_cells_spec R sim_count cells init r Hsim Hnd)
    as (o & r' & added & Hrun & Hres & Hkeys & Hrec & Hbest).
  { intros kr k Hkr. by apply elem_of_nil in Hkr. }
  cbn [results init app] in Hres. cbn [best_win_rate init] in Hbest.
  fold cells. rewrite Hrun. exists o, r'. split; [done|]. rewrite Hres, Hbest.
  assert (Hin_added : ∀ kr, kr ∈ added → kr.1 ∈ cells ∧ kr.1.1.2 ≤ 43 + kr.1.1.1).
  { intros kr Hkr.
    assert (Hk : kr.1 ∈ added.*1) by (apply list_elem_of_fmap; by exists kr).
    rewrite Hkeys in Hk. apply list_elem_of_filter in Hk as [? ?]. done. }
  assert (Hnd_added : NoDup (key_norm <$> added.*1)).
  { rewrite Hkeys. eapply sublist_NoDup; [exact Hnd|].
    apply fmap_sublist, sublist_filter. }
  assert (Hfacts : ∀ kr, cell_recorded R sim_count kr →
            total_games kr.2 = sim_count ∧ wins kr.2 + losses kr.2 = sim_count
            ∧ 0 ≤ wins kr.2 ≤ sim_count ∧ (0 <= win_rate_of kr.2)%Q).
  { intros kr (_ & r0 & Hlen & ->). cbn.
    match goal with |- context [wins_of ?g] => pose proof (wins_of_bounds g) as Hw end.
    rewrite Hlen in Hw. split; [done|]. split; [lia|]. split; [lia|].
    unfold win_rate_of. cbn. apply percent_nonneg; lia. }
  rewrite Forall_forall in Hrec.
  split; [|split; [|split; [|split]]].
  - intros jokers moves threshold _ Hskip. apply dict_get_None.
    intros kv Hkv. apply not_true_is_false. intros Heq%params_eqb_norm.
    apply Hin_added in Hkv as [_ Hle]. unfold key_norm in Heq. cbn in Heq.
    simplify_eq. unfold Params in *. lia.
  - intros jokers moves threshold Hcell Hle.
    assert (Hk : (jokers, moves, threshold) ∈ added.*1).
    { rewrite Hkeys. by apply list_elem_of_filter. }
    apply list_elem_of_fmap in Hk as ([k res] & Heq & Hin). cbn in Heq. subst k.
    exists res. split; [by apply dict_get_NoDup|].
    pose proof (Hrec _ Hin) as Hcr. split; [done|].
    destruct (Hfacts _ Hcr) as (? & ? & ? & _). done.
  - intros kr Hkr. split; [by apply Hin_added | by apply Hrec].
  - intros kr Hkr. by apply best_after_spec.
  - intros Hne. destruct (best_after_spec added 0) as (_ & Hmax & [Hzero|Hsome]).
    + destruct added as [|kr added']; [done|]. exists kr. split; [left|].
      apply Qle_antisym.
      * apply Hmax. left.
      * rewrite Hzero. apply Hfacts, Hrec. left.
    + destruct Hsome as (kr & Hin & ->). exists kr. split; [done | reflexivity].
Qed.

End GridSearchTheorem.

Section GridSearchExample.
Import Simulator Optimizer.

(** The theorem at a small grid on the unshuffled deck: two games a cell,
    jokers 0 to 1, inclusive moves 44 to 45, thresholds 5 and 9.5.  Of the
    eight cells only those with one joker and 44 moves are played. *)
Lemma C10_grid_search_witness :
  ∃ o r',
    run_optimization no_shuffle 2 0 1 44 45 0 10 [5; 19 # 2]%Q tt
    = Some (Returns tt (o, r'))
    ∧ dict_get (results o) (0, 44, 5%Q) = None
    ∧ (∃ res, dict_get (results o) (1, 44, 5%Q) = Some res
              ∧ total_games res = 2 ∧ wins res + losses res = 2)
    ∧ (∀ kr, kr ∈ results o → (win_rate_of kr.2 <= best_win_rate o)%Q).
Proof.
  destruct (C10_grid_search no_shuffle 2 0 1 44 45 0 10 [5; 19 # 2]%Q tt)
    as (o & r' & Hrun & Hskip & Hrec & _ & Hmax & _).
  - reflexivity.
  - vm_compute. apply NoDup_cons. split; [|apply NoDup_singleton].
    intros H. apply list_elem_of_singleton in H. discriminate H.
  - exists o, r'. split; [exact Hrun|]. split; [|split].
    + apply Hskip; [|lia]. apply elem_of_product.
      repeat split; vm_compute; repeat constructor.
    + destruct (Hrec 1 44 5%Q) as (res & Hget & _ & Htotal & Hsum & _); [|lia|].
      * apply elem_of_product. repeat split; vm_compute; repeat constructor.
      * exists res. split; [exact Hget|]. split; [exact Htotal | exact Hsum].
    + exact Hmax.
Defined.

End GridSearchExample.

(** ** No card is gained or lost in a simulated game *)

Section Cards.
Import Simulator.

Lemma valid_positions_all_failed (visible : list (option Card)) :
  all_failed visible = true →
  (filter (λ pc : Z * option Card, pc.2 ≠ None) (enumerate visible)).*1 = [].
Proof.
  intros Hall. rewrite all_failed_spec in Hall.
  destruct (filter _ _) as [|[i slot] rest] eqn:Hf; [done|]. exfalso.
  assert (Hin : (i, slot) ∈ filter (λ pc : Z * option Card, pc.2 ≠ None)
                              (enumerate visible)) by (rewrite Hf; left).
  apply list_elem_of_filter in Hin as [Hslot Hin].
  apply elem_of_enumerate in Hin as [_ Hlook]. cbn in Hslot.
  apply Hslot, Hall. by eapply list_elem_of_lookup_2.
Qed.

(** Once the game is over a move changes nothing. *)
Lemma make_best_move_game_over (gs : GameState) :
  is_game_over gs = true → state_of (make_best_move gs) = gs.
Proof.
  intros Hover. unfold is_game_over in Hover. unfold make_best_move.
  apply orb_true_iff in Hover as [Hall|Hdeck].
  - by rewrite (valid_positions_all_failed _ Hall).
  - apply bool_decide_eq_true in Hdeck.
    destruct ((filter _ _).*1) as [|position rest]; [done|].
    destruct (find_best_move gs) as [[[pos mt] rp]|].
    + unfold execute_move. by rewrite Hdeck.
    + destruct (py_index _ _) as [[card|]|]; [|done..].
      unfold execute_move. by rewrite Hdeck.
Qed.

Lemma sim_step_keeps_cards (gs gs' : GameState) :
  sim_wf gs → sim_step gs gs' →
  sim_wf gs' ∧ ∃ consumed, sim_held gs ≡ₚ consumed ++ sim_held gs'.
Proof.
  intros Hwf ->. destruct (is_game_over gs) eqn:Hover.
  - rewrite (make_best_move_game_over gs Hover). split; [done|]. by exists [].
  - destruct (make_best_move_draws gs Hwf Hover)
      as (b & gs1 & consumed & -> & _ & Hwf1 & Hheld).
    split; [done|]. by exists [consumed].
Qed.

(** In a simulated game the cards in the slots, in the failed boxes and in
    the deck, with the cards given up by the moves so far, are the cards of
    the deck as it was dealt. *)
Lemma simulated_game_keeps_cards (R : Shuffler) (num_jokers inclusive_moves : Z)
    (threshold : Q) (r : rng R) (gs : GameState) :
  rtc sim_step (new_game R num_jokers inclusive_moves threshold r).1 gs →
  ∃ consumed,
    (shuffle R r (build_deck num_jokers)).1 ≡ₚ consumed ++ sim_held gs.
Proof.
  intros Hsteps.
  pose proof (new_game_wf R num_jokers inclusive_moves threshold r) as Hwf.
  assert (Hstart : sim_held (new_game R num_jokers inclusive_moves threshold r).1
                   = (shuffle R r (build_deck num_jokers)).1).
  { unfold new_game. destruct (shuffle R r _) as [deck r']. cbn.
    unfold sim_held, held_cards. cbn. rewrite map_to_list_empty. cbn.
    rewrite <- (take_drop 9 deck) at 3. f_equal.
    induction (take 9 deck) as [|c l IH]; [done|]. cbn. by rewrite IH. }
  rewrite <- Hstart. clear Hstart.
  induction Hsteps as [gs|gs gs1 gs2 Hstep _ IH]; [by exists []|].
  destruct (sim_step_keeps_cards gs gs1 Hwf Hstep) as [Hwf1 [consumed1 H1]].
  destruct (IH Hwf1) as [consumed2 H2].
  exists (consumed1 ++ consumed2). rewrite H1, H2. solve_Permutation.
Qed.

End Cards.

(** ** Recovery in the window *)

Section RecoveryInTheWindow.
Import GamePlayer GamePlayer.NineBoxGame GamePlayer.NineBoxGUI.

(** In [NineBoxGUI.process_play] the recovery dialog is offered exactly when
    the choice was inclusive, a position has failed, and the drawn card or
    the target card is a joker or the two values are equal.  The play itself
    restores nothing: a correct play leaves [failed_boxes] as it was and a
    wrong one adds the position played. *)
Lemma NineBoxGUI_recovery_offered (gui gui' : NineBoxGUI.t) (position : Z)
    (player_choice : move_type) (target_card : Card) (correct offered : bool) :
  py_index (visible_cards (game gui)) position = Some (Some target_card) →
  NineBoxGUI.process_play gui position player_choice
  = Returns (Played correct offered) gui' →
  ∃ drawn_card,
    draw_card (game gui) = Some drawn_card
    ∧ offered = recovery_eligible player_choice drawn_card target_card
                && bool_decide (failed_boxes (game gui) ≠ ∅)
    ∧ failed_boxes (game gui')
      = if correct then failed_boxes (game gui)
        else <[position := target_card]> (failed_boxes (game gui)).
Proof.
  intros Htarget. unfold NineBoxGUI.process_play, recovery_eligible.
  set (used := is_inclusive player_choice).
  set (r := if used then use_inclusive_choice (game gui) else (true, game gui)).
  assert (Hr : r.2 = game gui ∨
               r.2 = with_inclusive_choices_remaining (game gui)
                       (inclusive_choices_remaining (game gui) - 1)).
  { subst r. destruct used; [|by left]. unfold use_inclusive_choice.
    destruct (_ >? 0); [by right | by left]. }
  destruct r as [ok g0]. cbn [snd] in Hr. destruct ok; cbn [negb]; [|done].
  assert (Hsame : visible_cards g0 = visible_cards (game gui)
                  ∧ remaining_deck g0 = remaining_deck (game gui)
                  ∧ failed_boxes g0 = failed_boxes (game gui))
    by (by destruct Hr as [->| ->]).
  destruct Hsame as (Hvis & Hdeck & Hfailed).
  rewrite Hvis, Htarget. unfold draw_card. rewrite Hdeck.
  destruct (head (remaining_deck (game gui))) as [drawn|]; [|done].
  unfold offer_failed_box_recovery. cbn -[update_counts].
  assert (Hfin : ∀ (c o : bool) (g : NineBoxGame.t) gui1,
    o = is_inclusive player_choice
        && (is_joker drawn || is_joker target_card
            || (value drawn =? value target_card))
        && bool_decide (failed_boxes (game gui) ≠ ∅) →
    failed_boxes g = (if c then failed_boxes (game gui)
                      else <[position := target_card]> (failed_boxes (game gui))) →
    Returns (Played c o) (with_game gui1 g)
    = Returns (Played correct offered) gui' →
    ∃ drawn_card, Some drawn = Some drawn_card
      ∧ offered = is_inclusive player_choice
                  && (is_joker drawn_card || is_joker target_card
                      || (value drawn_card =? value target_card))
                  && bool_decide (failed_boxes (game gui) ≠ ∅)
      ∧ failed_boxes (game gui')
        = if correct then failed_boxes (game gui)
          else <[position := target_card]> (failed_boxes (game gui))).
  { intros c o g gui1 Ho Hg [= <- <- <-]. by exists drawn. }
  destruct (is_joker drawn) eqn:Hd.
  { apply Hfin; cbn; rewrite Hfailed; [|done]. by rewrite andb_true_r. }
  destruct (is_joker target_card) eqn:Ht.
  { apply Hfin; cbn; rewrite Hfailed; [|done]. by rewrite andb_true_r. }
  unfold check_play_success, compare_cards. rewrite Hd. cbn [orb].
  destruct (value drawn =? value target_card) eqn:Heq.
  - pose proof Heq as Hv%Z.eqb_eq.
    destruct player_choice; cbn -[update_counts]; case_compare;
      apply Hfin; cbn; rewrite ?Hfailed; done.
  - destruct player_choice; cbn -[update_counts]; case_compare;
      apply Hfin; cbn; rewrite ?Hfailed; done.
Qed.

End RecoveryInTheWindow.
